(** * ai-camera-speaker-module: the capture / listen / reply / speak loop

    A shallow embedding of [src/main.py].  The script is sequential Python
    that talks to a camera, a microphone, two web services and a loudspeaker.
    It is embedded as a computation over

    - the process environment and the local variables of [main] (state that
      survives an exception and is carried from one loop pass to the next),
    - a log of the observable actions, in program order,
    - Python exceptions, with the split between [KeyboardInterrupt] and the
      classes deriving from [Exception] that the loop's handlers rely on.

    Whatever lies outside the script (interpreter built-ins, the libraries,
    devices and services) is an oracle of the [World]. *)

From Stdlib Require Import PrimFloat Ascii Strings.Byte.
From stdpp Require Import gmap strings list pretty.

Open Scope string_scope.
Open Scope list_scope.
Open Scope stdpp_scope.

(** ** Python values *)

Abbreviation Env := (gmap string string).

(** [bytes] objects. *)
Abbreviation bytes := (list Byte.byte).

(** Exceptions.  [KeyboardInterrupt] derives from [BaseException] only; the
    other constructors stand for classes deriving from [Exception].
    [OtherError cls msg] is an error raised inside a library or a built-in,
    with its class name and its [str()]. *)
Inductive exn :=
| KeyboardInterrupt
| RuntimeError (msg : string)
| KeyError (key : string)
| UnboundLocalError (var : string)
| OtherError (cls msg : string).

(** [isinstance(e, Exception)]. *)
Definition is_Exception (e : exn) : bool :=
  match e with
  | KeyboardInterrupt => false
  | _ => true
  end.

(** [str(e)], as the f-string of the loop's handler formats it. *)
Definition str_exn (e : exn) : string :=
  match e with
  | KeyboardInterrupt => ""
  | RuntimeError msg => msg
  | KeyError key => "'" +:+ key +:+ "'"
  | UnboundLocalError var =>
      "cannot access local variable '" +:+ var +:+
      "' where it is not associated with a value"
  | OtherError _ msg => msg
  end.

Inductive outcome (A : Type) :=
| Ok (a : A)
| Raise (e : exn).
Arguments Ok {A} a.
Arguments Raise {A} e.

Definition returned {A} (o : outcome A) : bool :=
  match o with
  | Ok _ => true
  | Raise _ => false
  end.

(** Truthiness of [str] and of [Optional[str]]. *)
Definition truthy (s : string) : bool :=
  match s with
  | EmptyString => false
  | String _ _ => true
  end.

Definition py_not (o : option string) : bool :=
  match o with
  | None => true
  | Some s => negb (truthy s)
  end.

(** [x or y] on strings. *)
Definition py_or (x y : string) : string :=
  if truthy x then x else y.

(** ** Module constants (lines 16-34) *)

Definition AUDIO_SECONDS : Z := 4.
Definition AUDIO_SAMPLE_RATE : Z := 16000.
Definition TRANSCRIPTION_MODEL : string := "gemini/gemini-2.0-flash".
Definition VISION_TEXT_MODEL : string := "gemini/gemini-2.0-flash".
Definition DEFAULT_VOICE_ID : string := "JBFqnCBsd6RMkjVDRZzb".

(** The literal of lines 29-34 after [.strip()]: the leading and the trailing
    newline are gone. *)
Definition GOOFY_SYSTEM_PROMPT : string :=
"Eres una cámara de seguridad IA muy graciosa y exagerada.
Habla SIEMPRE en español.
Sé breve (1-3 frases), divertida y amigable.
Describe qué ves y qué escuchas, pero evita inventar hechos peligrosos.".

(** ** [base64.b64encode(...).decode("utf-8")] *)

Definition b64_alphabet : string :=
  "ABCDEFGHIJKLMNOPQRSTUVWXYZabcdefghijklmnopqrstuvwxyz0123456789+/".

Definition b64_char (n : N) : ascii :=
  default "="%char (String.get (N.to_nat (n mod 64)) b64_alphabet).

Definition b64_group (a b c : Byte.byte) : N :=
  (Byte.to_N a * 65536 + Byte.to_N b * 256 + Byte.to_N c)%N.

Fixpoint b64encode (bs : bytes) : string :=
  match bs with
  | [] => ""
  | [a] =>
      let n := b64_group a Byte.x00 Byte.x00 in
      String (b64_char (n / 262144)) (String (b64_char (n / 4096)) "==")
  | [a; b] =>
      let n := b64_group a b Byte.x00 in
      String (b64_char (n / 262144))
        (String (b64_char (n / 4096)) (String (b64_char (n / 64)) "="))
  | a :: b :: c :: rest =>
      let n := b64_group a b c in
      String (b64_char (n / 262144))
        (String (b64_char (n / 4096))
           (String (b64_char (n / 64))
              (String (b64_char n) (b64encode rest))))
  end.

(** ** The request sent to the completion service *)

Inductive content_part :=
| TextPart (text : string)
| ImageUrlPart (url : string).

Inductive content :=
| PlainContent (text : string)
| PartsContent (parts : list content_part).

Record message := Message { role : string; msg_content : content }.

Record completion_request := CompletionRequest {
  req_model : string;
  req_messages : list message;
  req_temperature : float;
  req_max_tokens : Z;
}.

(** ** Observable actions *)

(** Calls that leave the script.  The log records each with its arguments. *)
Inductive call :=
| cv2_VideoCapture (index : Z)
| cam_read
| cam_release
| cv2_imencode (ext : string)
| sd_rec (frames samplerate channels : Z) (dtype : string)
| sd_wait
| NamedTemporaryFile (suffix : string)
| sf_write (path : string) (samplerate : Z)
| open_read (path : string)
| transcription (model filename : string) (audio : bytes)
| completion (req : completion_request)
| text_to_speech (api_key voice_id model_id text : string)
| tmp_write (path : string) (data : bytes)
| sf_read (path dtype : string)
| sd_play (samplerate : Z)
| time_sleep (secs : float).

(** [EvCall c r]: the call [c] was made and ended; [r] tells whether it
    returned ([true]) or raised ([false]). *)
Inductive event :=
| EvLoadDotenv
| EvGetenv (name : string)
| EvPrint (line : string)
| EvCall (c : call) (ret : bool).

Abbreviation trace := (list event).

(** ** State: the environment and the local variables of [main] *)

Record State := mkState {
  os_environ : Env;
  voice_id : option string;
  loop_delay : option float;
  frame_b64 : option string;
  wav_path : option string;
  transcript_text : option string;
  reply : option string;
}.

Definition set_environ (v : Env) (s : State) : State :=
  mkState v (voice_id s) (loop_delay s) (frame_b64 s) (wav_path s)
    (transcript_text s) (reply s).
Definition set_voice_id (v : string) (s : State) : State :=
  mkState (os_environ s) (Some v) (loop_delay s) (frame_b64 s) (wav_path s)
    (transcript_text s) (reply s).
Definition set_loop_delay (v : float) (s : State) : State :=
  mkState (os_environ s) (voice_id s) (Some v) (frame_b64 s) (wav_path s)
    (transcript_text s) (reply s).
Definition set_frame_b64 (v : string) (s : State) : State :=
  mkState (os_environ s) (voice_id s) (loop_delay s) (Some v) (wav_path s)
    (transcript_text s) (reply s).
Definition set_wav_path (v : string) (s : State) : State :=
  mkState (os_environ s) (voice_id s) (loop_delay s) (frame_b64 s) (Some v)
    (transcript_text s) (reply s).
Definition set_transcript_text (v : string) (s : State) : State :=
  mkState (os_environ s) (voice_id s) (loop_delay s) (frame_b64 s) (wav_path s)
    (Some v) (reply s).
Definition set_reply (v : string) (s : State) : State :=
  mkState (os_environ s) (voice_id s) (loop_delay s) (frame_b64 s) (wav_path s)
    (transcript_text s) (Some v).

(** The process as it starts: the inherited environment, no local bound. *)
Definition initial (environ : Env) : State :=
  mkState environ None None None None None None.

(** ** The monad of the script *)

(** A computation maps the state to the actions it performed, the state it
    left and its outcome.  The state is kept when an exception is raised: an
    assignment made before the raise stays made. *)
Definition M (A : Type) : Type := State → trace * State * outcome A.

#[export] Instance M_ret : MRet M := λ A a s, ([], s, Ok a).

#[export] Instance M_bind : MBind M := λ A B f m s,
  match m s with
  | (t, s', Ok a) =>
      match f a s' with
      | (t', s'', o) => (t ++ t', s'', o)
      end
  | (t, s', Raise e) => (t, s', Raise e)
  end.

Definition raise {A} (e : exn) : M A := λ s, ([], s, Raise e).

Definition emit (ev : event) : M unit := λ s, ([ev], s, Ok tt).

Definition print (line : string) : M unit := emit (EvPrint line).

(** A call that leaves the script: logged, then the world's answer. *)
Definition extern {A} (c : call) (o : outcome A) : M A :=
  λ s, ([EvCall c (returned o)], s, o).

(** Reading and assigning a local variable of [main]. *)
Definition load {A} (var : string) (get : State → option A) : M A :=
  λ s,
    match get s with
    | Some v => ([], s, Ok v)
    | None => ([], s, Raise (UnboundLocalError var))
    end.

Definition assign {A} (set : A → State → State) (v : A) : M unit :=
  λ s, ([], set v s, Ok tt).

(** [os.getenv(name)], [os.getenv(name, default)] and [os.environ[name]]. *)
Definition os_getenv (name : string) : M (option string) :=
  λ s, ([EvGetenv name], s, Ok (os_environ s !! name)).

Definition os_getenv_default (name dflt : string) : M string :=
  λ s, ([EvGetenv name], s, Ok (default dflt (os_environ s !! name))).

Definition os_environ_getitem (name : string) : M string :=
  λ s,
    match os_environ s !! name with
    | Some v => ([EvGetenv name], s, Ok v)
    | None => ([EvGetenv name], s, Raise (KeyError name))
    end.

(** The outcome of a built-in, which performs no observable action. *)
Definition lift {A} (o : outcome A) : M A := λ s, ([], s, o).

(** [if cond: stmt]. *)
Definition when (cond : bool) (stmt : M unit) : M unit :=
  if cond then stmt else mret tt.

(** [try: body / except ...: handler].  [handlers e] is the body of the
    first [except] clause that matches [e]; with no matching clause the
    exception goes on. *)
Definition try_except {A} (body : M A) (handlers : exn → option (M A)) : M A :=
  λ s,
    match body s with
    | (t, s', Ok a) => (t, s', Ok a)
    | (t, s', Raise e) =>
        match handlers e with
        | Some h =>
            match h s' with
            | (t', s'', o) => (t ++ t', s'', o)
            end
        | None => (t, s', Raise e)
        end
    end.

(** ** The world outside the script *)

Section Script.

(** numpy arrays: camera frames and audio samples. *)
Variable ndarray : Type.

(** What the devices and the services answer during one pass of the loop.
    Every call may end by raising: an error of the library, or the
    operator's interrupt arriving while the call is in progress. *)
Record Reaction := {
  (** [cv2.VideoCapture(0)], then [cam.isOpened()] *)
  on_VideoCapture : outcome bool;
  (** [cam.read()]: [Some frame] for [(True, frame)], [None] for [(False, None)] *)
  on_read : outcome (option ndarray);
  (** [cv2.imencode(".jpg", frame)]: [Some b] for [(True, encoded)] with
      [encoded.tobytes() = b], [None] for [ok = False] *)
  on_imencode : ndarray → outcome (option bytes);
  (** [sd.rec(frames, ...)] *)
  on_rec : Z → outcome ndarray;
  (** [sd.wait()] after [sd.rec] *)
  on_wait_rec : outcome unit;
  (** [tempfile.NamedTemporaryFile(suffix=".wav", delete=False)]: [tmp.name] *)
  on_tempfile_wav : outcome string;
  (** [sf.write(tmp.name, recording, AUDIO_SAMPLE_RATE)] *)
  on_sf_write : string → ndarray → outcome unit;
  (** [open(wav_path, "rb")] and [f.read()] *)
  on_open_read : string → outcome bytes;
  (** [transcription(model=..., file=audio_file)]: [result.text] *)
  on_transcription : bytes → outcome string;
  (** [completion(...)]: [response.choices[0].message.content] *)
  on_completion : completion_request → outcome string;
  (** [client.text_to_speech.convert(...)]: the chunks the iterator yields *)
  on_text_to_speech : string → string → string → outcome (list bytes);
  (** [tempfile.NamedTemporaryFile(suffix=".mp3", delete=False)]: [tmp.name] *)
  on_tempfile_mp3 : outcome string;
  (** [tmp.write(audio_bytes)] *)
  on_tmp_write : bytes → outcome unit;
  (** [sf.read(mp3_path, dtype="float32")]: [(data, sr)] *)
  on_sf_read : string → outcome (ndarray * Z);
  (** [sd.play(data, sr)] *)
  on_play : ndarray → Z → outcome unit;
  (** [sd.wait()] after [sd.play]: returns when the playback has finished *)
  on_wait_play : outcome unit;
  (** [time.sleep(loop_delay)] at the end of the [try] block *)
  on_sleep : float → outcome unit;
  (** [time.sleep(1.0)] in the [except Exception] clause: the argument is a
      valid constant, so the call returns unless the operator's interrupt
      arrives during the pause ([true]) *)
  on_backoff : bool;
}.

Record World := {
  (** [load_dotenv()]: the environment it leaves *)
  load_dotenv : Env → Env;
  (** the built-in [float] on [str] *)
  float_of_str : string → outcome float;
  (** [str.strip()] *)
  str_strip : string → string;
  (** the reactions during the passes of the loop, counted from 0 *)
  reaction : nat → Reaction;
}.

Variable w : World.

(** ** The five steps *)

(** Lines 37-53. *)
Definition capture_webcam_frame (r : Reaction) : M string :=
  opened ← extern (cv2_VideoCapture 0) (on_VideoCapture r);
  when (negb opened)
    (raise (RuntimeError "No se pudo abrir la webcam (índice 0)."));;
  read ← extern cam_read (on_read r);
  extern cam_release (Ok tt);;
  match read with
  | None => raise (RuntimeError "No se pudo capturar un frame de la webcam.")
  | Some frame =>
      enc ← extern (cv2_imencode ".jpg") (on_imencode r frame);
      match enc with
      | None => raise (RuntimeError "No se pudo codificar la imagen como JPEG.")
      | Some encoded => mret (b64encode encoded)
      end
  end.

(** Lines 56-69. *)
Definition record_microphone_wav (r : Reaction) (seconds : Z) : M string :=
  print ("🎤 Grabando audio por " +:+ pretty seconds +:+ " segundos...");;
  recording ← extern
    (sd_rec (seconds * AUDIO_SAMPLE_RATE) AUDIO_SAMPLE_RATE 1 "float32")
    (on_rec r (seconds * AUDIO_SAMPLE_RATE));
  extern sd_wait (on_wait_rec r);;
  tmp_name ← extern (NamedTemporaryFile ".wav") (on_tempfile_wav r);
  extern (sf_write tmp_name AUDIO_SAMPLE_RATE) (on_sf_write r tmp_name recording);;
  mret tmp_name.

(** Lines 72-84. *)
Definition transcribe_audio_with_gemini (r : Reaction) (path : string) : M string :=
  audio_bytes ← extern (open_read path) (on_open_read r path);
  text ← extern (transcription TRANSCRIPTION_MODEL "mic.wav" audio_bytes)
    (on_transcription r audio_bytes);
  mret (str_strip w text).

(** Lines 89-102: the [text] field and the whole user content. *)
Definition user_text (transcript : string) : string :=
  "Este es el contexto del micrófono transcrito: " +:+
  "'" +:+ py_or transcript "[sin audio claro]" +:+ "'. " +:+
  "Describe qué está pasando como una cámara de seguridad cómica.".

Definition user_content (frame transcript : string) : list content_part :=
  [ TextPart (user_text transcript);
    ImageUrlPart ("data:image/jpeg;base64," +:+ frame) ].

(** Lines 104-112; [0x1.ccccccccccccdp-1] is the binary64 value of [0.9]. *)
Definition goofy_request (frame transcript : string) : completion_request :=
  {| req_model := VISION_TEXT_MODEL;
     req_messages :=
       [ Message "system" (PlainContent GOOFY_SYSTEM_PROMPT);
         Message "user" (PartsContent (user_content frame transcript)) ];
     req_temperature := 0x1.ccccccccccccdp-1%float;
     req_max_tokens := 100 |}.

(** Lines 87-114. *)
Definition generate_goofy_reply (r : Reaction) (frame transcript : string) : M string :=
  let req := goofy_request frame transcript in
  answer ← extern (completion req) (on_completion r req);
  mret (str_strip w answer).

(** Lines 117-135. *)
Definition speak_with_elevenlabs (r : Reaction) (text voice : string) : M unit :=
  api_key ← os_environ_getitem "ELEVENLABS_API_KEY";
  audio ← extern (text_to_speech api_key voice "eleven_multilingual_v2" text)
    (on_text_to_speech r api_key voice text);
  let audio_bytes := concat audio in
  mp3_path ← extern (NamedTemporaryFile ".mp3") (on_tempfile_mp3 r);
  extern (tmp_write mp3_path audio_bytes) (on_tmp_write r audio_bytes);;
  '(data, sr) ← extern (sf_read mp3_path "float32") (on_sf_read r mp3_path);
  extern (sd_play sr) (on_play r data sr);;
  extern sd_wait (on_wait_play r).

(** ** The loop *)

Definition banner : string :=
  "🤖 Cámara IA graciosa iniciada. Ctrl+C para salir.".

Definition farewell : string :=
  "
👋 Saliendo...".

Definition error_line (e : exn) : string :=
  "⚠️ Error en loop: " +:+ str_exn e.

(** The statements of the [try] body, lines 155-164, in program order. *)
Inductive stmt :=
| StCapture          (* 155 *)
| StRecord           (* 156 *)
| StTranscribe       (* 157 *)
| StShowTranscript   (* 159 *)
| StGenerate         (* 160 *)
| StShowReply        (* 161 *)
| StSpeak            (* 163 *)
| StSleep.           (* 164 *)

Definition try_body : list stmt :=
  [StCapture; StRecord; StTranscribe; StShowTranscript;
   StGenerate; StShowReply; StSpeak; StSleep].

(** The five pipeline steps among them. *)
Definition pipeline_step (k : stmt) : bool :=
  match k with
  | StCapture | StRecord | StTranscribe | StGenerate | StSpeak => true
  | StShowTranscript | StShowReply | StSleep => false
  end.

Definition statement (r : Reaction) (k : stmt) : M unit :=
  match k with
  | StCapture =>
      f ← capture_webcam_frame r;
      assign set_frame_b64 f
  | StRecord =>
      p ← record_microphone_wav r AUDIO_SECONDS;
      assign set_wav_path p
  | StTranscribe =>
      p ← load "wav_path" wav_path;
      t ← transcribe_audio_with_gemini r p;
      assign set_transcript_text t
  | StShowTranscript =>
      t ← load "transcript_text" transcript_text;
      print ("📝 Transcripción: " +:+ py_or t "[vacío]")
  | StGenerate =>
      f ← load "frame_b64" frame_b64;
      t ← load "transcript_text" transcript_text;
      a ← generate_goofy_reply r f t;
      assign set_reply a
  | StShowReply =>
      a ← load "reply" reply;
      print ("🗣️ Respuesta IA: " +:+ a)
  | StSpeak =>
      a ← load "reply" reply;
      v ← load "voice_id" voice_id;
      speak_with_elevenlabs r a v
  | StSleep =>
      d ← load "loop_delay" loop_delay;
      extern (time_sleep d) (on_sleep r d)
  end.

(** Statements run one after the other; the first that raises ends the run. *)
Fixpoint run_stmts (r : Reaction) (ks : list stmt) : M unit :=
  match ks with
  | [] => mret tt
  | k :: ks' => statement r k;; run_stmts r ks'
  end.

Definition try_block (r : Reaction) : M unit := run_stmts r try_body.

(** What a pass tells the [while True]. *)
Inductive ctl := Continue | Break.

(** Lines 165-170: the two [except] clauses, in the order Python tries them. *)
Definition loop_handlers (r : Reaction) (e : exn) : option (M ctl) :=
  match e with
  | KeyboardInterrupt => Some (print farewell;; mret Break)
  | _ =>
      if is_Exception e then
        Some (print (error_line e);;
              extern (time_sleep 1)
                (if on_backoff r then Raise KeyboardInterrupt else Ok tt);;
              mret Continue)
      else None
  end.

(** Lines 154-170: one pass of the loop. *)
Definition loop_pass (r : Reaction) : M ctl :=
  try_except (try_block r;; mret Continue) (loop_handlers r).

(** How far a run has come. *)
Inductive status :=
| Running              (* the loop is about to start its next pass *)
| Returned             (* [break]: [main] returned *)
| Uncaught (e : exn).  (* the exception left [main] *)

(** Lines 153-170: [while True], cut after [fuel] passes; [pass] numbers the
    pass about to start. *)
Fixpoint while_true (fuel pass : nat) (s : State) : trace * State * status :=
  match fuel with
  | 0 => ([], s, Running)
  | S fuel' =>
      match loop_pass (reaction w pass) s with
      | (t, s', Ok Continue) =>
          match while_true fuel' (S pass) s' with
          | (t', s'', st) => (t ++ t', s'', st)
          end
      | (t, s', Ok Break) => (t, s', Returned)
      | (t, s', Raise e) => (t, s', Uncaught e)
      end
  end.

(** Lines 139-152: everything before the loop. *)
Definition startup : M unit :=
  (λ s, ([EvLoadDotenv], set_environ (load_dotenv w (os_environ s)) s, Ok tt));;
  gemini ← os_getenv "GEMINI_API_KEY";
  when (py_not gemini)
    (raise (RuntimeError "Falta GEMINI_API_KEY en variables de entorno."));;
  eleven ← os_getenv "ELEVENLABS_API_KEY";
  when (py_not eleven)
    (raise (RuntimeError "Falta ELEVENLABS_API_KEY en variables de entorno."));;
  v ← os_getenv_default "ELEVENLABS_VOICE_ID" DEFAULT_VOICE_ID;
  assign set_voice_id v;;
  text ← os_getenv_default "LOOP_DELAY_SECONDS" "1.0";
  d ← lift (float_of_str w text);
  assign set_loop_delay d;;
  print banner.

(** Lines 138-170: [main()] started in the environment [environ], observed
    until the loop has made [fuel] passes. *)
Definition main (environ : Env) (fuel : nat) : trace * State * status :=
  match startup (initial environ) with
  | (t, s, Ok _) =>
      match while_true fuel 0 s with
      | (t', s', st) => (t ++ t', s', st)
      end
  | (t, s, Raise e) => (t, s, Uncaught e)
  end.

End Script.

Arguments on_VideoCapture {ndarray} r.
Arguments on_read {ndarray} r.
Arguments on_imencode {ndarray} r frame.
Arguments on_rec {ndarray} r frames.
Arguments on_wait_rec {ndarray} r.
Arguments on_tempfile_wav {ndarray} r.
Arguments on_sf_write {ndarray} r path recording.
Arguments on_open_read {ndarray} r path.
Arguments on_transcription {ndarray} r audio.
Arguments on_completion {ndarray} r req.
Arguments on_text_to_speech {ndarray} r api_key voice text.
Arguments on_tempfile_mp3 {ndarray} r.
Arguments on_tmp_write {ndarray} r data.
Arguments on_sf_read {ndarray} r path.
Arguments on_play {ndarray} r data sr.
Arguments on_wait_play {ndarray} r.
Arguments on_sleep {ndarray} r secs.
Arguments on_backoff {ndarray} r.
Arguments load_dotenv {ndarray} w environ.
Arguments float_of_str {ndarray} w text.
Arguments str_strip {ndarray} w text.
Arguments reaction {ndarray} w pass.
Arguments capture_webcam_frame {ndarray} r.
Arguments record_microphone_wav {ndarray} r seconds.
Arguments transcribe_audio_with_gemini {ndarray} w r path.
Arguments generate_goofy_reply {ndarray} w r frame transcript.
Arguments speak_with_elevenlabs {ndarray} r text voice.
Arguments statement {ndarray} w r k.
Arguments run_stmts {ndarray} w r ks.
Arguments try_block {ndarray} w r.
Arguments loop_handlers {ndarray} r e.
Arguments loop_pass {ndarray} w r.
Arguments while_true {ndarray} w fuel pass s.
Arguments startup {ndarray} w.
Arguments main {ndarray} w environ fuel.

(** ** Reading logs and requests *)

(** The [text] field of the first text part of the message with role ["user"]. *)
Definition first_text (parts : list content_part) : option string :=
  head (omap (λ p, match p with TextPart t => Some t | ImageUrlPart _ => None end) parts).

Definition user_message_text (req : completion_request) : option string :=
  m ← head (filter (λ m, role m = "user") (req_messages req));
  match msg_content m with
  | PlainContent t => Some t
  | PartsContent parts => first_text parts
  end.

(** The requests sent to the completion service, in order. *)
Definition completion_requests (t : trace) : list completion_request :=
  omap (λ ev, match ev with EvCall (completion req) _ => Some req | _ => None end) t.

(** The variables the log reads from the environment, in order, and how
    often it reads [name]. *)
Definition getenv_names (t : trace) : list string :=
  omap (λ ev, match ev with EvGetenv name => Some name | _ => None end) t.

Definition getenv_count (name : string) (t : trace) : nat :=
  length (filter (λ n, n = name) (getenv_names t)).

(** The lines printed, in order. *)
Definition printed (t : trace) : list string :=
  omap (λ ev, match ev with EvPrint line => Some line | _ => None end) t.

(** The calls made, in order, each with whether it returned. *)
Definition calls (t : trace) : list (call * bool) :=
  omap (λ ev, match ev with EvCall c ret => Some (c, ret) | _ => None end) t.

(** ** Example worlds *)

(** [str.strip()] on text whose white space is ASCII. *)
Definition is_space (c : ascii) : bool :=
  let n := N_of_ascii c in
  ((9 <=? n) && (n <=? 13) || (28 <=? n) && (n <=? 32))%N.

Fixpoint lstrip (s : string) : string :=
  match s with
  | String c s' => if is_space c then lstrip s' else s
  | EmptyString => s
  end.

Definition ascii_strip (s : string) : string :=
  String.rev (lstrip (String.rev (lstrip s))).

(** [float()] on the texts the examples pass to it: ["1.0"] and ["0.5"] are
    numerals, ["abc"] is not; whatever else is taken to be rejected too. *)
Definition float_table (s : string) : outcome float :=
  if String.eqb s "1.0" then Ok 1%float
  else if String.eqb s "0.5" then Ok 0.5%float
  else Raise (OtherError "ValueError"
                ("could not convert string to float: '" +:+ s +:+ "'")).

(** A pass in which every device and service answers; the parameters are the
    answers the examples vary. *)
Definition studio (video : outcome bool) (wait_rec : outcome unit)
    (heard : string) (backoff : bool) : Reaction bytes :=
  {| on_VideoCapture := video;
     on_read := Ok (Some [x01; x02; x03]%byte);
     on_imencode := λ _, Ok (Some ["J"; "P"; "G"]%byte);
     on_rec := λ _, Ok [x00; x00]%byte;
     on_wait_rec := wait_rec;
     on_tempfile_wav := Ok "/tmp/tmp1.wav";
     on_sf_write := λ _ _, Ok tt;
     on_open_read := λ _, Ok ["R"; "I"; "F"; "F"]%byte;
     on_transcription := λ _, Ok heard;
     on_completion := λ _, Ok " ¡Alguien saluda a la cámara! ";
     on_text_to_speech := λ _ _ _, Ok [["I"; "D"]; ["3"]]%byte;
     on_tempfile_mp3 := Ok "/tmp/tmp2.mp3";
     on_tmp_write := λ _, Ok tt;
     on_sf_read := λ _, Ok ([x00]%byte, 44100%Z);
     on_play := λ _ _, Ok tt;
     on_wait_play := Ok tt;
     on_sleep := λ _, Ok tt;
     on_backoff := backoff |}.

Definition world_of (passes : nat → Reaction bytes) : World bytes :=
  {| load_dotenv := λ environ, environ;
     float_of_str := float_table;
     str_strip := ascii_strip;
     reaction := passes |}.

(** Everything works, and the microphone hears "hola". *)
Definition fair_world : World bytes :=
  world_of (λ _, studio (Ok true) (Ok tt) " hola" false).

(** The camera never opens. *)
Definition dark_world : World bytes :=
  world_of (λ _, studio (Ok false) (Ok tt) "" false).

(** The operator presses Ctrl+C while the first recording is in progress. *)
Definition impatient_world : World bytes :=
  world_of (λ _, studio (Ok true) (Raise KeyboardInterrupt) "" false).

(** The camera never opens, and the operator presses Ctrl+C during the pause
    that follows the first failure. *)
Definition dark_impatient_world : World bytes :=
  world_of (λ _, studio (Ok false) (Ok tt) "" true).

Definition both_keys : Env :=
  <["GEMINI_API_KEY" := "g-key"]> (<["ELEVENLABS_API_KEY" := "e-key"]> ∅).

Definition gemini_key_only : Env := <["GEMINI_API_KEY" := "g-key"]> ∅.

Definition bad_delay : Env := <["LOOP_DELAY_SECONDS" := "abc"]> both_keys.

(** ** What the loop may do with the configuration *)

(** The configuration as resolved by the startup: the environment after
    [load_dotenv()], the voice and the delay held by the locals of [main]. *)
Definition config_inv (env : Env) (v : string) (d : float) (s : State) : Prop :=
  os_environ s = env ∧ voice_id s = Some v ∧ loop_delay s = Some d.

(** What an action of the loop may be, given that configuration: the only
    variable read is the synthesis credential, every synthesis request carries
    the credential of [env] and the voice [v], every pause lasts [d] seconds
    or the fixed second of the error handler, and [load_dotenv()] is not
    called again. *)
Definition loop_event_ok (env : Env) (v : string) (d : float) (ev : event) : Prop :=
  match ev with
  | EvLoadDotenv => False
  | EvGetenv name => name = "ELEVENLABS_API_KEY"
  | EvPrint _ => True
  | EvCall (text_to_speech key voice _ _) _ =>
      env !! "ELEVENLABS_API_KEY" = Some key ∧ voice = v
  | EvCall (time_sleep secs) _ => secs = d ∨ secs = 1%float
  | EvCall _ _ => True
  end.

(** The log of a startup that reaches the conversion of the delay. *)
Definition startup_reads : trace :=
  [EvLoadDotenv; EvGetenv "GEMINI_API_KEY"; EvGetenv "ELEVENLABS_API_KEY";
   EvGetenv "ELEVENLABS_VOICE_ID"; EvGetenv "LOOP_DELAY_SECONDS"].

(** ** A pass in which every statement returns *)

(** What the devices and services produced during such a pass. *)
Record pass_values (ndarray : Type) := {
  pv_frame : ndarray;        (* the frame read from the camera *)
  pv_jpeg : bytes;           (* its JPEG encoding *)
  pv_recording : ndarray;    (* the samples recorded *)
  pv_wav : string;           (* the path of the WAV file *)
  pv_audio : bytes;          (* the content read back from that path *)
  pv_heard : string;         (* the text of the transcription result *)
  pv_answer : string;        (* the content of the first choice *)
  pv_chunks : list bytes;    (* the chunks of synthesized audio *)
  pv_mp3 : string;           (* the path of the MP3 file *)
  pv_data : ndarray;         (* the samples decoded from it *)
  pv_sr : Z;                 (* and their sample rate *)
}.
Arguments pv_frame {ndarray} p.
Arguments pv_jpeg {ndarray} p.
Arguments pv_recording {ndarray} p.
Arguments pv_wav {ndarray} p.
Arguments pv_audio {ndarray} p.
Arguments pv_heard {ndarray} p.
Arguments pv_answer {ndarray} p.
Arguments pv_chunks {ndarray} p.
Arguments pv_mp3 {ndarray} p.
Arguments pv_data {ndarray} p.
Arguments pv_sr {ndarray} p.

(** The values of [x] are the answers of [r], each asked with what the
    answers before it gave; [key] and [voice] are the credential and the voice
    the synthesis was asked with. *)
Definition produced_by {ndarray} (w : World ndarray) (r : Reaction ndarray)
    (key voice : string) (x : pass_values ndarray) : Prop :=
  on_VideoCapture r = Ok true ∧
  on_read r = Ok (Some (pv_frame x)) ∧
  on_imencode r (pv_frame x) = Ok (Some (pv_jpeg x)) ∧
  on_rec r 64000 = Ok (pv_recording x) ∧
  on_wait_rec r = Ok tt ∧
  on_tempfile_wav r = Ok (pv_wav x) ∧
  on_sf_write r (pv_wav x) (pv_recording x) = Ok tt ∧
  on_open_read r (pv_wav x) = Ok (pv_audio x) ∧
  on_transcription r (pv_audio x) = Ok (pv_heard x) ∧
  on_completion r
    (goofy_request (b64encode (pv_jpeg x)) (str_strip w (pv_heard x)))
    = Ok (pv_answer x) ∧
  on_text_to_speech r key voice (str_strip w (pv_answer x)) = Ok (pv_chunks x) ∧
  on_tempfile_mp3 r = Ok (pv_mp3 x) ∧
  on_tmp_write r (concat (pv_chunks x)) = Ok tt ∧
  on_sf_read r (pv_mp3 x) = Ok (pv_data x, pv_sr x) ∧
  on_play r (pv_data x) (pv_sr x) = Ok tt ∧
  on_wait_play r = Ok tt.

(** The log of the pass: capture, record, transcribe, generate, speak, sleep. *)
Definition pass_log {ndarray} (w : World ndarray) (key voice : string)
    (delay : float) (x : pass_values ndarray) : trace :=
  [ EvCall (cv2_VideoCapture 0) true;
    EvCall cam_read true;
    EvCall cam_release true;
    EvCall (cv2_imencode ".jpg") true;
    EvPrint "🎤 Grabando audio por 4 segundos...";
    EvCall (sd_rec 64000 16000 1 "float32") true;
    EvCall sd_wait true;
    EvCall (NamedTemporaryFile ".wav") true;
    EvCall (sf_write (pv_wav x) 16000) true;
    EvCall (open_read (pv_wav x)) true;
    EvCall (transcription "gemini/gemini-2.0-flash" "mic.wav" (pv_audio x)) true;
    EvPrint ("📝 Transcripción: " +:+ py_or (str_strip w (pv_heard x)) "[vacío]");
    EvCall (completion
              (goofy_request (b64encode (pv_jpeg x)) (str_strip w (pv_heard x))))
      true;
    EvPrint ("🗣️ Respuesta IA: " +:+ str_strip w (pv_answer x));
    EvGetenv "ELEVENLABS_API_KEY";
    EvCall (text_to_speech key voice "eleven_multilingual_v2"
              (str_strip w (pv_answer x))) true;
    EvCall (NamedTemporaryFile ".mp3") true;
    EvCall (tmp_write (pv_mp3 x) (concat (pv_chunks x))) true;
    EvCall (sf_read (pv_mp3 x) "float32") true;
    EvCall (sd_play (pv_sr x)) true;
    EvCall sd_wait true;
    EvCall (time_sleep delay) true ].

(** The state of [main] in [fair_world] when the loop starts. *)
Definition ready : State :=
  set_loop_delay 1 (set_voice_id DEFAULT_VOICE_ID (initial both_keys)).

(** ** Passes that fail *)

(** Whatever the locals hold, the [try] body of pass [pass] raises an error
    deriving from [Exception], and the pause that follows is not interrupted. *)
Definition fails {ndarray} (w : World ndarray) (pass : nat) : Prop :=
  on_backoff (reaction w pass) = false ∧
  ∀ s, ∃ t s' e,
    try_block w (reaction w pass) s = (t, s', Raise e) ∧ is_Exception e = true.

(** ** Playback *)

(** Whether a playback is in progress after an action: [sd.play] starts one
    when it returns, a [sd.wait] that returns ends it.  [None]: a playback or a
    sleep was started while a playback was in progress. *)
Definition playback_step (playing : bool) (ev : event) : option bool :=
  match ev with
  | EvCall (sd_play _) true => if playing then None else Some true
  | EvCall sd_wait true => Some false
  | EvCall (time_sleep _) _ => if playing then None else Some false
  | _ => Some playing
  end.

Fixpoint playback_run (playing : bool) (t : trace) : option bool :=
  match t with
  | [] => Some playing
  | ev :: t' =>
      match playback_step playing ev with
      | Some playing' => playback_run playing' t'
      | None => None
      end
  end.

(** ** The errors of the capturer *)

(** The three errors the capturer raises itself. *)
Definition capture_error (msg : string) : Prop :=
  msg = "No se pudo abrir la webcam (índice 0)." ∨
  msg = "No se pudo capturar un frame de la webcam." ∨
  msg = "No se pudo codificar la imagen como JPEG.".

(** [sd.wait()] after [sd.play] returns or is interrupted; it reports the
    errors of the stream through its result, not by raising. *)
Definition wait_play_ok {ndarray} (r : Reaction ndarray) : Prop :=
  on_wait_play r = Ok tt ∨ on_wait_play r = Raise KeyboardInterrupt.

(** ** Counting in logs *)

(** How many actions of the log satisfy [f]. *)
Fixpoint tally (f : event → bool) (t : trace) : nat :=
  match t with
  | [] => 0
  | ev :: t' => (if f ev then 1 else 0) + tally f t'
  end.

(** [cv2.VideoCapture(...)] was called. *)
Definition is_open (ev : event) : bool :=
  match ev with
  | EvCall (cv2_VideoCapture _) _ => true
  | _ => false
  end.

(** [cam.read()] returned. *)
Definition is_read (ev : event) : bool :=
  match ev with
  | EvCall cam_read true => true
  | _ => false
  end.

(** [cam.release()] was called. *)
Definition is_release (ev : event) : bool :=
  match ev with
  | EvCall cam_release _ => true
  | _ => false
  end.

(** ** The parameters the script fixes *)

Definition fixed_parameters (ev : event) : Prop :=
  match ev with
  | EvCall (cv2_VideoCapture index) _ => index = 0%Z
  | EvCall (cv2_imencode ext) _ => ext = ".jpg"
  | EvCall (sd_rec frames samplerate channels dtype) _ =>
      frames = 64000%Z ∧ samplerate = 16000%Z ∧ channels = 1%Z ∧ dtype = "float32"
  | EvCall (NamedTemporaryFile suffix) _ => suffix = ".wav" ∨ suffix = ".mp3"
  | EvCall (sf_write _ samplerate) _ => samplerate = 16000%Z
  | EvCall (transcription model filename _) _ =>
      model = "gemini/gemini-2.0-flash" ∧ filename = "mic.wav"
  | EvCall (completion req) _ =>
      ∃ frame transcript,
        req = {| req_model := "gemini/gemini-2.0-flash";
                 req_messages :=
                   [ Message "system" (PlainContent GOOFY_SYSTEM_PROMPT);
                     Message "user"
                       (PartsContent
                          [ TextPart (user_text transcript);
                            ImageUrlPart ("data:image/jpeg;base64," +:+ frame) ]) ];
                 req_temperature := 0x1.ccccccccccccdp-1%float;
                 req_max_tokens := 100 |}
  | EvCall (text_to_speech _ _ model_id _) _ => model_id = "eleven_multilingual_v2"
  | EvCall (sf_read _ dtype) _ => dtype = "float32"
  | _ => True
  end.

(** ** More example environments *)

(** ELEVENLABS_VOICE_ID is set, to the empty text. *)
Definition empty_voice : Env := <["ELEVENLABS_VOICE_ID" := ""]> both_keys.

(** The synthesis service was asked. *)
Definition is_tts (ev : event) : bool :=
  match ev with
  | EvCall (text_to_speech _ _ _ _) _ => true
  | _ => false
  end.

(** The synthesis credential was read from the environment. *)
Definition is_credential_read (ev : event) : bool :=
  match ev with
  | EvGetenv name => String.eqb name "ELEVENLABS_API_KEY"
  | _ => false
  end.

(** The camera never opens, and the operator presses Ctrl+C during the pause
    that follows the first failure: the state and the log the loop leaves. *)
Definition dark_log : trace :=
  [EvCall (cv2_VideoCapture 0) true;
   EvPrint "⚠️ Error en loop: No se pudo abrir la webcam (índice 0).";
   EvCall (time_sleep 1) false].

(** A character of base64 text: a letter, a digit, [+], [/], or the padding. *)
Definition b64_symbol (c : ascii) : bool :=
  let n := N_of_ascii c in
  ((65 <=? n) && (n <=? 90) || (97 <=? n) && (n <=? 122) ||
   (48 <=? n) && (n <=? 57) || (n =? 43) || (n =? 47) || (n =? 61))%N.

(** The state of [main] in [fair_world] after a pass has left its values in
    the locals. *)
Definition used : State :=
  set_reply "una respuesta anterior"
    (set_transcript_text "adiós"
       (set_wav_path "/tmp/tmp0.wav" (set_frame_b64 "QUJD" ready))).

(** ** More example worlds *)

(** A pass in which the camera opens and [cam.read()] ends as given; the
    other devices and services answer as in [studio]. *)
Definition jammed (read : outcome (option bytes)) : Reaction bytes :=
  let r := studio (Ok true) (Ok tt) "" false in
  {| on_VideoCapture := Ok true;
     on_read := read;
     on_imencode := on_imencode r;
     on_rec := on_rec r;
     on_wait_rec := on_wait_rec r;
     on_tempfile_wav := on_tempfile_wav r;
     on_sf_write := on_sf_write r;
     on_open_read := on_open_read r;
     on_transcription := on_transcription r;
     on_completion := on_completion r;
     on_text_to_speech := on_text_to_speech r;
     on_tempfile_mp3 := on_tempfile_mp3 r;
     on_tmp_write := on_tmp_write r;
     on_sf_read := on_sf_read r;
     on_play := on_play r;
     on_wait_play := on_wait_play r;
     on_sleep := on_sleep r;
     on_backoff := on_backoff r |}.

(** What the devices and services produce in a pass of [fair_world]. *)
Definition fair_values : pass_values bytes :=
  {| pv_frame := [x01; x02; x03]%byte;
     pv_jpeg := ["J"; "P"; "G"]%byte;
     pv_recording := [x00; x00]%byte;
     pv_wav := "/tmp/tmp1.wav";
     pv_audio := ["R"; "I"; "F"; "F"]%byte;
     pv_heard := " hola";
     pv_answer := " ¡Alguien saluda a la cámara! ";
     pv_chunks := [["I"; "D"]; ["3"]]%byte;
     pv_mp3 := "/tmp/tmp2.mp3";
     pv_data := [x00]%byte;
     pv_sr := 44100 |}.

(** ** Tactics *)

Ltac unfold_M :=
  unfold mbind, M_bind, mret, M_ret, extern, emit, print, raise, lift, when,
    load, assign, os_getenv, os_getenv_default, os_environ_getitem in *.

(** Case analysis on what the world answers. *)

Ltac innermost x tac :=
  lazymatch x with
  | context [match _ with _ => _ end] => fail
  | _ => tac x
  end.

Ltac world_case :=
  match goal with
  | |- context [match ?x with Ok _ => _ | Raise _ => _ end] =>
      innermost x ltac:(fun x => destruct x eqn:?)
  | |- context [match ?x with Some _ => _ | None => _ end] =>
      innermost x ltac:(fun x => destruct x eqn:?)
  | |- context [match ?x with (_, _) => _ end] =>
      innermost x ltac:(fun x => destruct x eqn:?)
  | |- context [if ?x then _ else _] =>
      innermost x ltac:(fun x => destruct x eqn:?)
  end.

Ltac world_cases := repeat (world_case; cbn).

Ltac unfold_steps :=
  unfold statement, capture_webcam_frame, record_microphone_wav,
    transcribe_audio_with_gemini, generate_goofy_reply, speak_with_elevenlabs.

(** * Properties *)

(** ** Running the monad *)

Lemma bind_run {A B} (m : M A) (f : A → M B) (s : State) :
  (m ≫= f) s =
  match m s with
  | (t, s', Ok a) => match f a s' with (t', s'', o) => (t ++ t', s'', o) end
  | (t, s', Raise e) => (t, s', Raise e)
  end.
Proof. reflexivity. Qed.

(** ** The prompt (lines 89-102) *)

Lemma truthy_nonempty (s : string) : s ≠ "" → truthy s = true.
Proof. destruct s; [congruence | reflexivity]. Qed.

Lemma user_message_text_goofy (frame transcript : string) :
  user_message_text (goofy_request frame transcript) = Some (user_text transcript).
Proof. reflexivity. Qed.

(** The generator sends exactly one request, the one built from its two
    arguments, whatever the service answers. *)
Lemma generate_goofy_reply_request {ndarray} (w : World ndarray) r frame transcript s :
  completion_requests (generate_goofy_reply w r frame transcript s).1.1
  = [goofy_request frame transcript].
Proof.
  unfold generate_goofy_reply. unfold_M.
  destruct (on_completion r _); reflexivity.
Qed.

(** C3. Whatever the frame: with the empty transcript, the text field of the
    user message sent by the reply generator quotes the fixed placeholder
    [[sin audio claro]] and is not the text with an empty pair of quotes; with
    a transcript that is not empty, it quotes that transcript. *)
Theorem C3_placeholder_for_empty_transcript
    {ndarray} (w : World ndarray) (r : Reaction ndarray) (frame transcript : string) (s : State) :
  ∃ req,
    completion_requests (generate_goofy_reply w r frame transcript s).1.1 = [req] ∧
    (transcript = "" →
       user_message_text req = Some
         "Este es el contexto del micrófono transcrito: '[sin audio claro]'. Describe qué está pasando como una cámara de seguridad cómica."
       ∧ user_message_text req ≠ Some
         "Este es el contexto del micrófono transcrito: ''. Describe qué está pasando como una cámara de seguridad cómica.") ∧
    (transcript ≠ "" →
       user_message_text req = Some
         ("Este es el contexto del micrófono transcrito: '" +:+ transcript +:+
          "'. Describe qué está pasando como una cámara de seguridad cómica.")).
Proof.
  exists (goofy_request frame transcript).
  split; [apply generate_goofy_reply_request |].
  rewrite user_message_text_goofy. split.
  - intros ->. split; [reflexivity | discriminate].
  - intros Hne. unfold user_text, py_or. rewrite (truthy_nonempty _ Hne).
    reflexivity.
Qed.

Lemma C3_witness :
  ∃ req,
    completion_requests
      (generate_goofy_reply fair_world (reaction fair_world 0) "SlBH" "hola"
         (initial both_keys)).1.1 = [req] ∧
    user_message_text req = Some
      "Este es el contexto del micrófono transcrito: 'hola'. Describe qué está pasando como una cámara de seguridad cómica.".
Proof.
  destruct (C3_placeholder_for_empty_transcript fair_world (reaction fair_world 0)
              "SlBH" "hola" (initial both_keys)) as (req & Hreq & _ & Hne).
  exists req. split; [exact Hreq |]. apply Hne. discriminate.
Defined.

(** ** The frame capturer (lines 37-53) *)

(** C5, as the script has it.  [capture_webcam_frame] leaves the state alone
    and first opens the camera of index 0.  It returns, the base64 text of the
    encoded JPEG, exactly when the camera is opened, the read is successful
    and the encoding is successful.  It raises its three descriptive errors
    when cv2 reports, through [isOpened()] or an [ok] flag, that the camera is
    not opened, that the read was not successful, or that the encoding was not
    successful.  When a call into cv2 itself raises, that exception is the
    outcome.  The camera is released in the call exactly when it was opened
    and [cam.read()] returned, successful or not, and then right after the
    read: so also when the read or the encoding is reported unsuccessful, but
    not when [cam.read()] raises, and not when the camera is not opened. *)
Theorem C5_capture_webcam_frame
    {ndarray} (r : Reaction ndarray) (s : State) :
  ∃ t o,
    capture_webcam_frame r s =
      (EvCall (cv2_VideoCapture 0) (returned (on_VideoCapture r)) :: t, s, o) ∧
    (∀ text,
       o = Ok text ↔
       ∃ frame jpeg,
         on_VideoCapture r = Ok true ∧ on_read r = Ok (Some frame) ∧
         on_imencode r frame = Ok (Some jpeg) ∧ text = b64encode jpeg) ∧
    (on_VideoCapture r = Ok false →
       o = Raise (RuntimeError "No se pudo abrir la webcam (índice 0).")) ∧
    (on_VideoCapture r = Ok true → on_read r = Ok None →
       o = Raise (RuntimeError "No se pudo capturar un frame de la webcam.")) ∧
    (∀ frame,
       on_VideoCapture r = Ok true → on_read r = Ok (Some frame) →
       on_imencode r frame = Ok None →
       o = Raise (RuntimeError "No se pudo codificar la imagen como JPEG.")) ∧
    (∀ e, on_VideoCapture r = Raise e → o = Raise e) ∧
    (∀ e, on_VideoCapture r = Ok true → on_read r = Raise e → o = Raise e) ∧
    (∀ frame e,
       on_VideoCapture r = Ok true → on_read r = Ok (Some frame) →
       on_imencode r frame = Raise e → o = Raise e) ∧
    ((cam_release, true) ∈ calls t ↔
       on_VideoCapture r = Ok true ∧ returned (on_read r) = true) ∧
    (on_VideoCapture r = Ok true → returned (on_read r) = true →
       ∃ t', t = EvCall cam_read true :: EvCall cam_release true :: t' ∧
             (cam_release, true) ∉ calls t').
Proof.
  unfold capture_webcam_frame. unfold_M.
  destruct (on_VideoCapture r) as [[]|e0] eqn:Hopen; cbn;
    [destruct (on_read r) as [[frame|]|e1] eqn:Hread; cbn;
       [destruct (on_imencode r frame) as [[jpeg|]|e2] eqn:Henc; cbn | |] | |];
    (do 2 eexists; split; [reflexivity |]; cbn; split_and!; try done).
  all: try (intros; simplify_eq; congruence).
  all: try (intros text; split;
            [first [discriminate | intros [= <-]; by eexists _, _]
            | intros (f & j & ? & ? & ? & ?); simplify_eq; congruence]).
  all: try (split;
            [intros Hin;
             first [by split
                   | repeat (apply elem_of_cons in Hin as [Hin | Hin];
                             [discriminate |]);
                     by apply elem_of_nil in Hin]
            | intros [? ?]; first [done | repeat constructor]]).
  all: intros _ _; eexists; (split; [reflexivity |]); cbn; intros Hin.
  all: repeat (apply elem_of_cons in Hin as [Hin | Hin]; [discriminate |]).
  all: by apply elem_of_nil in Hin.
Qed.

Lemma C5_witness :
  ∃ t,
    capture_webcam_frame (reaction fair_world 0) (initial both_keys)
    = (EvCall (cv2_VideoCapture 0) true :: t, initial both_keys, Ok "SlBH").
Proof.
  destruct (C5_capture_webcam_frame (reaction fair_world 0) (initial both_keys))
    as (t & o & Hrun & Hok & _).
  exists t. rewrite Hrun. do 2 f_equal.
  apply Hok. exists [x01; x02; x03]%byte, ["J"; "P"; "G"]%byte.
  repeat split; reflexivity.
Defined.

(** Against C5 as stated: the camera opens and [cam.read()] raises, because
    the operator's interrupt arrives during the read or because the library
    fails.  The call ends there: the camera it opened is not released, and in
    the second case the error raised is none of the three descriptive ones
    although the camera was opened and no read or encoding was reported
    unsuccessful. *)
Lemma C5_read_raises :
  capture_webcam_frame (jammed (Raise KeyboardInterrupt)) (initial both_keys) =
    ([EvCall (cv2_VideoCapture 0) true; EvCall cam_read false],
     initial both_keys, Raise KeyboardInterrupt) ∧
  capture_webcam_frame
    (jammed (Raise (OtherError "cv2.error" "Unknown C++ exception from OpenCV code")))
    (initial both_keys) =
    ([EvCall (cv2_VideoCapture 0) true; EvCall cam_read false],
     initial both_keys,
     Raise (OtherError "cv2.error" "Unknown C++ exception from OpenCV code")).
Proof. split; reflexivity. Qed.

Section Config.
Context {ndarray : Type} (w : World ndarray).
Variables (env : Env) (v : string) (d : float).

Lemma statement_config (r : Reaction ndarray) (k : stmt) (s : State) :
  config_inv env v d s →
  Forall (loop_event_ok env v d) (statement w r k s).1.1 ∧
  config_inv env v d (statement w r k s).1.2.
Proof.
  intros (Henv & Hv & Hd).
  destruct k; unfold_steps; unfold_M; cbn; world_cases.
  all: split; [repeat constructor | repeat split]; cbn; congruence.
Qed.

End Config.

(** ** One pass of the loop, and the loop *)

Section Loop.
Context {ndarray : Type} (w : World ndarray).

(** What [try] / [except] makes of the outcome of the [try] body. *)
Lemma loop_pass_run (r : Reaction ndarray) (s : State) :
  loop_pass w r s =
  match try_block w r s with
  | (t, s', Ok _) => (t, s', Ok Continue)
  | (t, s', Raise KeyboardInterrupt) => (t ++ [EvPrint farewell], s', Ok Break)
  | (t, s', Raise e) =>
      (t ++ [EvPrint (error_line e); EvCall (time_sleep 1) (negb (on_backoff r))],
       s', if on_backoff r then Raise KeyboardInterrupt else Ok Continue)
  end.
Proof.
  unfold loop_pass, try_except. rewrite bind_run.
  destruct (try_block w r s) as [[t s'] [[]|e]]; cbn.
  - by rewrite app_nil_r.
  - destruct e; cbn; unfold_M; cbn; destruct (on_backoff r); reflexivity.
Qed.

Lemma run_stmts_cons (r : Reaction ndarray) k ks s :
  run_stmts w r (k :: ks) s =
  match statement w r k s with
  | (t, s', Ok _) =>
      match run_stmts w r ks s' with (t', s'', o) => (t ++ t', s'', o) end
  | (t, s', Raise e) => (t, s', Raise e)
  end.
Proof. reflexivity. Qed.

(** Running [pre ++ post]: [pre], then [post] where [pre] left off. *)
Lemma run_stmts_app (r : Reaction ndarray) pre post s :
  run_stmts w r (pre ++ post) s =
  match run_stmts w r pre s with
  | (t, s', Ok _) =>
      match run_stmts w r post s' with (t', s'', o) => (t ++ t', s'', o) end
  | (t, s', Raise e) => (t, s', Raise e)
  end.
Proof.
  revert s. induction pre as [|k pre IH]; intros s.
  - cbn. by destruct (run_stmts w r post s) as [[t' s''] o].
  - rewrite <- app_comm_cons, !run_stmts_cons.
    destruct (statement w r k s) as [[t s'] [[]|e]]; [| reflexivity].
    rewrite IH.
    destruct (run_stmts w r pre s') as [[t1 s1] [[]|e]]; [| reflexivity].
    destruct (run_stmts w r post s1) as [[t2 s2] o].
    by rewrite app_assoc.
Qed.

(** A statement that raises after the statements before it have run ends
    the [try] body there. *)
Lemma try_block_raise (r : Reaction ndarray) pre k post s t0 s0 t1 s1 e :
  try_body = pre ++ k :: post →
  run_stmts w r pre s = (t0, s0, Ok tt) →
  statement w r k s0 = (t1, s1, Raise e) →
  try_block w r s = (t0 ++ t1, s1, Raise e).
Proof.
  intros Hbody Hpre Hk. unfold try_block. rewrite Hbody, run_stmts_app, Hpre.
  rewrite run_stmts_cons, Hk. reflexivity.
Qed.

(** Unfolding the loop by one pass. *)
Lemma while_true_S fuel pass s :
  while_true w (S fuel) pass s =
  match loop_pass w (reaction w pass) s with
  | (t, s', Ok Continue) =>
      match while_true w fuel (S pass) s' with
      | (t', s'', st) => (t ++ t', s'', st)
      end
  | (t, s', Ok Break) => (t, s', Returned)
  | (t, s', Raise e) => (t, s', Uncaught e)
  end.
Proof. reflexivity. Qed.

(** The first action of a pass is to open the camera at index 0. *)
Lemma capture_first (r : Reaction ndarray) s :
  ∃ t', (statement w r StCapture s).1.1 =
        EvCall (cv2_VideoCapture 0) (returned (on_VideoCapture r)) :: t'.
Proof.
  unfold statement, capture_webcam_frame. unfold_M. cbn.
  world_cases; eauto.
Qed.

Lemma try_block_first (r : Reaction ndarray) s :
  ∃ t', (try_block w r s).1.1 =
        EvCall (cv2_VideoCapture 0) (returned (on_VideoCapture r)) :: t'.
Proof.
  destruct (capture_first r s) as [t' Ht'].
  unfold try_block, try_body. rewrite run_stmts_cons.
  destruct (statement w r StCapture s) as [[t s'] [[]|e]]; cbn in Ht'; subst t;
    [| cbn; eauto].
  destruct (run_stmts w r _ s') as [[t2 s2] o]. cbn. eauto.
Qed.

Lemma loop_pass_first (r : Reaction ndarray) s :
  ∃ t', (loop_pass w r s).1.1 =
        EvCall (cv2_VideoCapture 0) (returned (on_VideoCapture r)) :: t'.
Proof.
  destruct (try_block_first r s) as [t' Ht']. rewrite loop_pass_run.
  destruct (try_block w r s) as [[t s'] [[]|e]]; cbn in *; subst t.
  - eauto.
  - destruct e; cbn; eauto.
Qed.

Lemma while_true_first fuel pass s :
  ∃ t', (while_true w (S fuel) pass s).1.1 =
        EvCall (cv2_VideoCapture 0)
          (returned (on_VideoCapture (reaction w pass))) :: t'.
Proof.
  destruct (loop_pass_first (reaction w pass) s) as [t' Ht']. rewrite while_true_S.
  destruct (loop_pass w (reaction w pass) s) as [[t s'] [[]|e]]; cbn in *; subst t;
    [| eauto ..].
  destruct (while_true w fuel (S pass) s') as [[t2 s2] st]. cbn. eauto.
Qed.

Section Config.
Variables (env : Env) (v : string) (d : float).

Lemma run_stmts_config (r : Reaction ndarray) (ks : list stmt) (s : State) :
  config_inv env v d s →
  Forall (loop_event_ok env v d) (run_stmts w r ks s).1.1 ∧
  config_inv env v d (run_stmts w r ks s).1.2.
Proof.
  revert s. induction ks as [|k ks IH]; intros s Hs; [by split; [constructor|] |].
  rewrite run_stmts_cons.
  destruct (statement_config w env v d r k s Hs) as [Ht Hs'].
  destruct (statement w r k s) as [[t s'] [[]|e]]; cbn in *; [| done].
  destruct (IH s' Hs') as [Ht' Hs''].
  destruct (run_stmts w r ks s') as [[t' s''] o]; cbn in *.
  split; [by apply Forall_app | done].
Qed.

Lemma loop_pass_config (r : Reaction ndarray) (s : State) :
  config_inv env v d s →
  Forall (loop_event_ok env v d) (loop_pass w r s).1.1 ∧
  config_inv env v d (loop_pass w r s).1.2.
Proof.
  intros Hs. rewrite loop_pass_run.
  destruct (run_stmts_config r try_body s Hs) as [Ht Hs'].
  fold (try_block w r) in Ht, Hs'.
  destruct (try_block w r s) as [[t s'] [[]|e]]; cbn in *; [done |].
  assert (Hh : Forall (loop_event_ok env v d)
                 [EvPrint (error_line e);
                  EvCall (time_sleep 1) (negb (on_backoff r))]).
  { constructor; [exact I |]. constructor; [by right | constructor]. }
  destruct e; cbn; (split; [| done]); apply Forall_app; split; try done.
  repeat constructor.
Qed.

Lemma while_true_config fuel pass (s : State) :
  config_inv env v d s →
  Forall (loop_event_ok env v d) (while_true w fuel pass s).1.1 ∧
  config_inv env v d (while_true w fuel pass s).1.2.
Proof.
  revert pass s. induction fuel as [|fuel IH]; intros pass s Hs;
    [by split; [constructor|] |].
  rewrite while_true_S.
  destruct (loop_pass_config (reaction w pass) s Hs) as [Ht Hs'].
  destruct (loop_pass w (reaction w pass) s) as [[t s'] [[]|e]]; cbn in *; [| done ..].
  destruct (IH (S pass) s' Hs') as [Ht' Hs''].
  destruct (while_true w fuel (S pass) s') as [[t' s''] st]; cbn in *.
  split; [by apply Forall_app | done].
Qed.

End Config.

(** ** The startup *)

(** The four ways the startup can go. *)
Lemma startup_run (environ : Env) :
  let env := load_dotenv w environ in
  let s0 := set_environ env (initial environ) in
  let v := default DEFAULT_VOICE_ID (env !! "ELEVENLABS_VOICE_ID") in
  startup w (initial environ) =
  if py_not (env !! "GEMINI_API_KEY") then
    (take 2 startup_reads, s0,
     Raise (RuntimeError "Falta GEMINI_API_KEY en variables de entorno."))
  else if py_not (env !! "ELEVENLABS_API_KEY") then
    (take 3 startup_reads, s0,
     Raise (RuntimeError "Falta ELEVENLABS_API_KEY en variables de entorno."))
  else
    match float_of_str w (default "1.0" (env !! "LOOP_DELAY_SECONDS")) with
    | Ok d =>
        (startup_reads ++ [EvPrint banner],
         set_loop_delay d (set_voice_id v s0), Ok tt)
    | Raise e => (startup_reads, set_voice_id v s0, Raise e)
    end.
Proof.
  cbn zeta. unfold startup. unfold_M. cbn.
  destruct (py_not (load_dotenv w environ !! "GEMINI_API_KEY")); cbn; [done |].
  destruct (py_not (load_dotenv w environ !! "ELEVENLABS_API_KEY")); cbn; [done |].
  destruct (float_of_str w _); reflexivity.
Qed.

End Loop.

(** ** Whole runs *)

Section Runs.
Context {ndarray : Type} (w : World ndarray).

(** A run either stops in the startup, having at most read the four
    variables, or prints the banner and loops under the configuration the
    startup resolved. *)
Lemma main_cases (environ : Env) (fuel : nat) :
  let env := load_dotenv w environ in
  let v := default DEFAULT_VOICE_ID (env !! "ELEVENLABS_VOICE_ID") in
  (∃ n e s, n ∈ [2; 3; 5] ∧ os_environ s = env ∧
            main w environ fuel = (take n startup_reads, s, Uncaught e)) ∨
  (∃ d t s st,
     float_of_str w (default "1.0" (env !! "LOOP_DELAY_SECONDS")) = Ok d ∧
     main w environ fuel = (startup_reads ++ EvPrint banner :: t, s, st) ∧
     Forall (loop_event_ok env v d) t ∧ config_inv env v d s).
Proof.
  cbn zeta. unfold main. rewrite startup_run. cbn zeta.
  destruct (py_not (load_dotenv w environ !! "GEMINI_API_KEY")).
  { left. exists 2. do 2 eexists. split; [set_solver |]. split; [| reflexivity]. done. }
  destruct (py_not (load_dotenv w environ !! "ELEVENLABS_API_KEY")).
  { left. exists 3. do 2 eexists. split; [set_solver |]. split; [| reflexivity]. done. }
  destruct (float_of_str w _) as [d|e] eqn:Hd.
  - right. exists d.
    match goal with |- context [while_true w fuel 0 ?s0] =>
      destruct (while_true_config w (load_dotenv w environ)
                  (default DEFAULT_VOICE_ID
                     (load_dotenv w environ !! "ELEVENLABS_VOICE_ID")) d fuel 0 s0)
        as [Ht Hs]; [done |];
      destruct (while_true w fuel 0 s0) as [[t s] st]
    end.
    exists t, s, st. split; [done |]. split; [| done].
    by rewrite <- app_assoc.
  - left. exists 5. do 2 eexists. split; [set_solver |]. split; [| reflexivity]. done.
Qed.

Lemma getenv_count_app name t1 t2 :
  getenv_count name (t1 ++ t2) = getenv_count name t1 + getenv_count name t2.
Proof.
  unfold getenv_count, getenv_names. by rewrite omap_app, filter_app, length_app.
Qed.

Lemma loop_reads_only_credential env v d name t :
  Forall (loop_event_ok env v d) t →
  name ≠ "ELEVENLABS_API_KEY" →
  getenv_count name t = 0.
Proof.
  intros Ht Hname. induction Ht as [|ev t Hev _ IH]; [reflexivity |].
  change (ev :: t) with ([ev] ++ t). rewrite getenv_count_app, IH.
  destruct ev; try reflexivity. cbn in Hev. subst name0.
  unfold getenv_count. cbn -[filter].
  rewrite filter_cons_False; [reflexivity | congruence].
Qed.

End Runs.

(** ** Startup: credentials and configuration (lines 139-152) *)

(** C1, as the script has it.  With GEMINI_API_KEY unset or empty after
    [load_dotenv()], [main] raises its RuntimeError having only read that
    variable; with GEMINI_API_KEY set and ELEVENLABS_API_KEY unset or empty,
    it raises the other RuntimeError having read both: in either case nothing
    was printed and no call left the script.  With both credentials set and
    not empty, and the text of LOOP_DELAY_SECONDS (or its default ["1.0"])
    accepted by [float], the startup prints the banner and the loop starts:
    the next action is the opening of the camera by the first pass. *)
Theorem C1_credentials_gate
    {ndarray} (w : World ndarray) (environ : Env) (fuel : nat) :
  let env := load_dotenv w environ in
  (py_not (env !! "GEMINI_API_KEY") = true →
     (main w environ fuel).1.1 = [EvLoadDotenv; EvGetenv "GEMINI_API_KEY"] ∧
     (main w environ fuel).2 =
       Uncaught (RuntimeError "Falta GEMINI_API_KEY en variables de entorno.")) ∧
  (py_not (env !! "GEMINI_API_KEY") = false →
   py_not (env !! "ELEVENLABS_API_KEY") = true →
     (main w environ fuel).1.1 =
       [EvLoadDotenv; EvGetenv "GEMINI_API_KEY"; EvGetenv "ELEVENLABS_API_KEY"] ∧
     (main w environ fuel).2 =
       Uncaught (RuntimeError "Falta ELEVENLABS_API_KEY en variables de entorno.")) ∧
  (py_not (env !! "GEMINI_API_KEY") = false →
   py_not (env !! "ELEVENLABS_API_KEY") = false →
   returned (float_of_str w (default "1.0" (env !! "LOOP_DELAY_SECONDS"))) = true →
     ∃ t', (main w environ (S fuel)).1.1 =
           startup_reads ++
           EvPrint banner ::
           EvCall (cv2_VideoCapture 0) (returned (on_VideoCapture (reaction w 0))) :: t').
Proof.
  cbn zeta. unfold main. rewrite startup_run. cbn zeta.
  split; [| split].
  - intros ->. split; reflexivity.
  - intros -> ->. split; reflexivity.
  - intros -> -> Hd.
    destruct (float_of_str w _) as [d|e]; [| discriminate].
    match goal with |- context [while_true w (S fuel) 0 ?s0] =>
      destruct (while_true_first w fuel 0 s0) as [t' Ht'];
      destruct (while_true w (S fuel) 0 s0) as [[t s] st]
    end.
    cbn in Ht'. subst t. exists t'. cbn. reflexivity.
Qed.

Lemma C1_witness :
  (main fair_world gemini_key_only 3).1.1 =
    [EvLoadDotenv; EvGetenv "GEMINI_API_KEY"; EvGetenv "ELEVENLABS_API_KEY"] ∧
  (main fair_world gemini_key_only 3).2 =
    Uncaught (RuntimeError "Falta ELEVENLABS_API_KEY en variables de entorno.").
Proof.
  destruct (C1_credentials_gate fair_world gemini_key_only 3) as (_ & Hgate & _).
  apply Hgate; vm_compute; reflexivity.
Defined.

(** Both credentials are set, yet the startup does not reach the loop: the
    text of LOOP_DELAY_SECONDS is ["abc"], the run ends after the four reads
    with the error of [float], and no banner is printed. *)
Lemma C1_delay_stops_startup :
  bad_delay !! "GEMINI_API_KEY" = Some "g-key" ∧
  bad_delay !! "ELEVENLABS_API_KEY" = Some "e-key" ∧
  (main fair_world bad_delay 3).1.1 = startup_reads ∧
  (main fair_world bad_delay 3).2 =
    Uncaught (OtherError "ValueError" "could not convert string to float: 'abc'").
Proof. repeat split; vm_compute; reflexivity. Qed.

(** C10. With both credentials set and not empty, if LOOP_DELAY_SECONDS holds
    a text that [float] rejects with the exception [e], then [main] ends with
    [e] uncaught after the two credential checks and the reads of the voice
    and the delay; no banner is printed, no call leaves the script, and no
    default delay is used. *)
Theorem C10_bad_delay_is_fatal
    {ndarray} (w : World ndarray) (environ : Env) (fuel : nat)
    (text : string) (e : exn) :
  let env := load_dotenv w environ in
  py_not (env !! "GEMINI_API_KEY") = false →
  py_not (env !! "ELEVENLABS_API_KEY") = false →
  env !! "LOOP_DELAY_SECONDS" = Some text →
  float_of_str w text = Raise e →
  (main w environ fuel).1.1 = startup_reads ∧
  (main w environ fuel).2 = Uncaught e ∧
  printed (main w environ fuel).1.1 = [] ∧
  calls (main w environ fuel).1.1 = [].
Proof.
  cbn zeta. intros Hg He Htext Hfloat.
  unfold main. rewrite startup_run. cbn zeta.
  rewrite Hg, He, Htext. cbn. rewrite Hfloat. done.
Qed.

Lemma C10_witness :
  (main fair_world bad_delay 3).1.1 = startup_reads ∧
  (main fair_world bad_delay 3).2 =
    Uncaught (OtherError "ValueError" "could not convert string to float: 'abc'") ∧
  printed (main fair_world bad_delay 3).1.1 = [] ∧
  calls (main fair_world bad_delay 3).1.1 = [].
Proof.
  apply (C10_bad_delay_is_fatal fair_world bad_delay 3 "abc"
           (OtherError "ValueError" "could not convert string to float: 'abc'"));
    vm_compute; reflexivity.
Defined.

(** ** Configuration while the loop runs *)

Lemma loop_event_ok_tts env v d key voice model text ret t :
  Forall (loop_event_ok env v d) t →
  EvCall (text_to_speech key voice model text) ret ∈ t →
  env !! "ELEVENLABS_API_KEY" = Some key ∧ voice = v.
Proof. intros Ht Hin. exact (proj1 (Forall_forall _ _) Ht _ Hin). Qed.

Lemma loop_event_ok_sleep env v d secs ret t :
  Forall (loop_event_ok env v d) t →
  EvCall (time_sleep secs) ret ∈ t →
  secs = d ∨ secs = 1%float.
Proof. intros Ht Hin. exact (proj1 (Forall_forall _ _) Ht _ Hin). Qed.

Lemma startup_has_no_call n c ret t :
  EvCall c ret ∈ take n startup_reads ++ t → EvCall c ret ∈ t.
Proof.
  intros Hin. apply elem_of_app in Hin as [Hin | Hin]; [| done].
  apply elem_of_take in Hin as (i & Hi & _).
  unfold startup_reads in Hi.
  do 5 (destruct i as [|i]; [discriminate |]). discriminate.
Qed.

Lemma main_call_in_loop {ndarray} (w : World ndarray) environ fuel c ret :
  EvCall c ret ∈ (main w environ fuel).1.1 →
  let env := load_dotenv w environ in
  ∃ d t,
    float_of_str w (default "1.0" (env !! "LOOP_DELAY_SECONDS")) = Ok d ∧
    Forall (loop_event_ok env
              (default DEFAULT_VOICE_ID (env !! "ELEVENLABS_VOICE_ID")) d) t ∧
    EvCall c ret ∈ t.
Proof.
  intros Hin. cbn zeta.
  destruct (main_cases w environ fuel) as
    [(n & e & s & _ & _ & Hrun) | (d & t & s & st & Hd & Hrun & Ht & _)];
    rewrite Hrun in Hin; cbn [fst] in Hin.
  - rewrite <- (app_nil_r (take n _)) in Hin.
    apply startup_has_no_call in Hin. by apply elem_of_nil in Hin.
  - exists d, t. repeat split; try done.
    change (startup_reads ++ EvPrint banner :: t)
      with (take 5 startup_reads ++ EvPrint banner :: t) in Hin.
    apply startup_has_no_call in Hin.
    apply elem_of_cons in Hin as [Hin | Hin]; [discriminate | done].
Qed.

(** Observing the loop for one more pass. *)
Lemma while_true_snoc {ndarray} (w : World ndarray) fuel first s :
  while_true w (S fuel) first s =
  match while_true w fuel first s with
  | (t, s', Running) =>
      match loop_pass w (reaction w (first + fuel)) s' with
      | (t', s'', Ok Continue) => (t ++ t', s'', Running)
      | (t', s'', Ok Break) => (t ++ t', s'', Returned)
      | (t', s'', Raise e) => (t ++ t', s'', Uncaught e)
      end
  | (t, s', st) => (t, s', st)
  end.
Proof.
  revert first s. induction fuel as [|fuel IH]; intros first s.
  - rewrite while_true_S. cbn [while_true]. rewrite Nat.add_0_r.
    destruct (loop_pass w (reaction w first) s) as [[t s'] [[]|e]];
      by rewrite ?app_nil_r.
  - rewrite (while_true_S w (S fuel) first s), (while_true_S w fuel first s).
    destruct (loop_pass w (reaction w first) s) as [[t s'] [[]|e]];
      try reflexivity.
    rewrite IH. replace (S first + fuel) with (first + S fuel) by lia.
    destruct (while_true w fuel (S first) s') as [[t2 s2] [| |]];
      try reflexivity.
    destruct (loop_pass w (reaction w (first + S fuel)) s2) as [[t3 s3] [[]|e]];
      by rewrite app_assoc.
Qed.

(** A pass in which every call returns: its log. *)
Lemma try_block_returns {ndarray} (w : World ndarray) (r : Reaction ndarray)
    (s : State) (key voice : string) (d : float) (x : pass_values ndarray) :
  os_environ s !! "ELEVENLABS_API_KEY" = Some key →
  voice_id s = Some voice →
  loop_delay s = Some d →
  produced_by w r key voice x →
  on_sleep r d = Ok tt →
  ∃ s', try_block w r s = (pass_log w key voice d x, s', Ok tt) ∧
        os_environ s' = os_environ s ∧ voice_id s' = voice_id s ∧
        loop_delay s' = loop_delay s.
Proof.
  intros Hkey Hvoice Hdelay Hx Hsleep.
  unfold produced_by in Hx. cbn in Hx.
  destruct Hx as
    (H1 & H2 & H3 & H4 & H5 & H6 & H7 & H8 & H9 & H10 & H11 & H12 & H13 & H14 &
     H15 & H16).
  unfold try_block, try_body, run_stmts. unfold_steps. unfold_M. cbn.
  change (AUDIO_SECONDS * AUDIO_SAMPLE_RATE)%Z with 64000%Z.
  rewrite H1. cbn. rewrite H2. cbn. rewrite H3. cbn. rewrite H4. cbn.
  rewrite H5. cbn. rewrite H6. cbn. rewrite H7. cbn. rewrite H8. cbn.
  rewrite H9. cbn. rewrite H10. cbn. rewrite Hvoice. cbn.
  match goal with |- context [match ?l with Some _ => _ | None => _ end] =>
    replace l with (Some key) by (symmetry; exact Hkey)
  end.
  cbn.
  rewrite H11. cbn. rewrite H12. cbn. rewrite H13. cbn. rewrite H14. cbn.
  rewrite H15. cbn. rewrite H16. cbn. rewrite Hdelay. cbn. rewrite Hsleep. cbn.
  eexists. split; [reflexivity | done].
Qed.

(** The pass that follows a run still running, when every call returns. *)
Lemma main_pass_returns {ndarray} (w : World ndarray) (environ : Env) (fuel : nat)
    (d : float) :
  let env := load_dotenv w environ in
  let v := default DEFAULT_VOICE_ID (env !! "ELEVENLABS_VOICE_ID") in
  float_of_str w (default "1.0" (env !! "LOOP_DELAY_SECONDS")) = Ok d →
  (main w environ fuel).2 = Running →
  voice_id (main w environ fuel).1.2 = Some v ∧
  loop_delay (main w environ fuel).1.2 = Some d ∧
  ∀ key x,
    env !! "ELEVENLABS_API_KEY" = Some key →
    produced_by w (reaction w fuel) key v x →
    on_sleep (reaction w fuel) d = Ok tt →
    (main w environ (S fuel)).1.1 = (main w environ fuel).1.1 ++ pass_log w key v d x ∧
    (main w environ (S fuel)).2 = Running.
Proof.
  cbn zeta. intros Hd Hrun.
  unfold main in *. rewrite startup_run in *. cbn zeta in *.
  destruct (py_not (load_dotenv w environ !! "GEMINI_API_KEY")); [discriminate |].
  destruct (py_not (load_dotenv w environ !! "ELEVENLABS_API_KEY")); [discriminate |].
  rewrite Hd in *.
  match goal with |- context [while_true w fuel 0 ?s0] =>
    destruct (while_true_config w (load_dotenv w environ)
                (default DEFAULT_VOICE_ID
                   (load_dotenv w environ !! "ELEVENLABS_VOICE_ID")) d fuel 0 s0)
      as [_ (Henv & Hv & Hdelay)]; [done |];
    rewrite (while_true_snoc w fuel 0 s0);
    destruct (while_true w fuel 0 s0) as [[t s] st]
  end.
  cbn in Hrun, Henv, Hv, Hdelay. subst st. cbn [fst snd].
  split; [exact Hv |]. split; [exact Hdelay |].
  intros key x Hkey Hx Hsleep.
  rewrite <- Henv in Hkey.
  destruct (try_block_returns w (reaction w fuel) s key _ d x Hkey Hv Hdelay Hx
              Hsleep) as (s' & Htry & _).
  change (0 + fuel) with fuel. rewrite loop_pass_run, Htry.
  cbn [fst snd]. by rewrite app_assoc.
Qed.

(** C9. With ELEVENLABS_VOICE_ID unset after [load_dotenv()], every request
    to the synthesis service in a run of [main] carries the default voice
    ["JBFqnCBsd6RMkjVDRZzb"]: the loop holds that voice in its local, and a
    pass in which every call returns asks the synthesis with it.  With
    LOOP_DELAY_SECONDS unset, [float] being Python's ([float("1.0")] is
    [1.0]), every pause of a run lasts 1.0 second, the loop holds the delay
    1.0 in its local, and a pass in which every call returns ends with
    [time.sleep(1.0)], after which the loop is still running. *)
Theorem C9_defaults
    {ndarray} (w : World ndarray) (environ : Env) (fuel : nat) :
  let env := load_dotenv w environ in
  let r := reaction w fuel in
  (env !! "ELEVENLABS_VOICE_ID" = None →
   (∀ key voice model text ret,
      EvCall (text_to_speech key voice model text) ret ∈ (main w environ fuel).1.1 →
      voice = "JBFqnCBsd6RMkjVDRZzb") ∧
   (∀ d,
      float_of_str w (default "1.0" (env !! "LOOP_DELAY_SECONDS")) = Ok d →
      (main w environ fuel).2 = Running →
      voice_id (main w environ fuel).1.2 = Some "JBFqnCBsd6RMkjVDRZzb" ∧
      ∀ key x,
        env !! "ELEVENLABS_API_KEY" = Some key →
        produced_by w r key "JBFqnCBsd6RMkjVDRZzb" x →
        on_sleep r d = Ok tt →
        (main w environ (S fuel)).1.1 =
          (main w environ fuel).1.1 ++ pass_log w key "JBFqnCBsd6RMkjVDRZzb" d x ∧
        EvCall (text_to_speech key "JBFqnCBsd6RMkjVDRZzb" "eleven_multilingual_v2"
                  (str_strip w (pv_answer x))) true
          ∈ (main w environ (S fuel)).1.1)) ∧
  (env !! "LOOP_DELAY_SECONDS" = None →
   float_of_str w "1.0" = Ok 1%float →
   (∀ secs ret,
      EvCall (time_sleep secs) ret ∈ (main w environ fuel).1.1 →
      secs = 1%float) ∧
   ((main w environ fuel).2 = Running →
    loop_delay (main w environ fuel).1.2 = Some 1%float ∧
    ∀ key x,
      env !! "ELEVENLABS_API_KEY" = Some key →
      produced_by w r key (default DEFAULT_VOICE_ID (env !! "ELEVENLABS_VOICE_ID")) x →
      on_sleep r 1 = Ok tt →
      (main w environ (S fuel)).1.1 =
        (main w environ fuel).1.1 ++
        pass_log w key (default DEFAULT_VOICE_ID (env !! "ELEVENLABS_VOICE_ID")) 1 x ∧
      last (main w environ (S fuel)).1.1 = Some (EvCall (time_sleep 1) true) ∧
      (main w environ (S fuel)).2 = Running)).
Proof.
  cbn zeta. split.
  - intros Hv. split.
    + intros key voice model text ret Hin.
      apply main_call_in_loop in Hin as (d & t & _ & Ht & Hin).
      apply (loop_event_ok_tts _ _ _ _ _ _ _ _ _ Ht) in Hin as [_ ->].
      by rewrite Hv.
    + intros d Hd Hrun.
      destruct (main_pass_returns w environ fuel d Hd Hrun) as (Hvoice & _ & Hpass).
      rewrite Hv in Hvoice, Hpass. cbn in Hvoice, Hpass.
      split; [exact Hvoice |]. intros key x Hkey Hx Hsleep.
      destruct (Hpass key x Hkey Hx Hsleep) as [Hlog _].
      split; [exact Hlog |]. rewrite Hlog. apply elem_of_app. right.
      unfold pass_log. do 15 apply list_elem_of_further. apply list_elem_of_here.
  - intros Hdelay Hone. split.
    + intros secs ret Hin.
      apply main_call_in_loop in Hin as (d & t & Hd & Ht & Hin).
      rewrite Hdelay in Hd. cbn in Hd. rewrite Hone in Hd. injection Hd as <-.
      by destruct (loop_event_ok_sleep _ _ _ _ _ _ Ht Hin).
    + intros Hrun.
      assert (Hd : float_of_str w
                (default "1.0" (load_dotenv w environ !! "LOOP_DELAY_SECONDS"))
                = Ok 1%float) by (by rewrite Hdelay).
      destruct (main_pass_returns w environ fuel _ Hd Hrun) as (_ & Hsecs & Hpass).
      split; [exact Hsecs |]. intros key x Hkey Hx Hsleep.
      destruct (Hpass key x Hkey Hx Hsleep) as [Hlog Hst].
      split; [exact Hlog |]. split; [| exact Hst].
      rewrite Hlog. unfold pass_log.
      match goal with |- last (?t ++ ?l) = _ =>
        change l with (removelast l ++ [EvCall (time_sleep 1) true])
      end.
      by rewrite app_assoc, last_snoc.
Qed.

Lemma fair_world_produces :
  produced_by fair_world (reaction fair_world 0) "e-key" "JBFqnCBsd6RMkjVDRZzb"
    fair_values.
Proof. repeat split; reflexivity. Qed.

Lemma C9_witness :
  (main fair_world both_keys 1).1.1 =
    (main fair_world both_keys 0).1.1 ++
    pass_log fair_world "e-key" "JBFqnCBsd6RMkjVDRZzb" 1 fair_values ∧
  last (main fair_world both_keys 1).1.1 = Some (EvCall (time_sleep 1) true) ∧
  EvCall (text_to_speech "e-key" "JBFqnCBsd6RMkjVDRZzb" "eleven_multilingual_v2"
            "¡Alguien saluda a la cámara!") true
    ∈ (main fair_world both_keys 1).1.1 ∧
  (∀ key voice model text ret,
     EvCall (text_to_speech key voice model text) ret
       ∈ (main fair_world both_keys 1).1.1 →
     voice = "JBFqnCBsd6RMkjVDRZzb") ∧
  (∀ secs ret,
     EvCall (time_sleep secs) ret ∈ (main fair_world both_keys 1).1.1 →
     secs = 1%float).
Proof.
  destruct (C9_defaults fair_world both_keys 0) as [Hvoice Hdelay].
  destruct (C9_defaults fair_world both_keys 1) as [Hvoice1 Hdelay1].
  destruct Hvoice as [_ Hpass]; [reflexivity |].
  destruct (Hpass 1%float) as [_ Hspeak]; [reflexivity | reflexivity |].
  destruct (Hspeak "e-key" fair_values) as [_ Hin];
    [reflexivity | exact fair_world_produces | reflexivity |].
  destruct Hdelay as [_ Hnext]; [reflexivity | reflexivity |].
  destruct Hnext as [_ Hnext]; [reflexivity |].
  destruct (Hnext "e-key" fair_values) as (Hlog & Hlast & _);
    [reflexivity | exact fair_world_produces | reflexivity |].
  split; [exact Hlog |]. split; [exact Hlast |]. split; [exact Hin |].
  split.
  - apply Hvoice1. reflexivity.
  - apply Hdelay1; reflexivity.
Defined.

(** C8, as the script has it.  In every run of [main]: GEMINI_API_KEY,
    ELEVENLABS_VOICE_ID and LOOP_DELAY_SECONDS are each read at most once (at
    startup); the environment left by [load_dotenv()] is never changed; every
    synthesis request carries the voice resolved at startup and, as credential,
    the value that environment holds for ELEVENLABS_API_KEY; every pause lasts
    the delay resolved at startup or the fixed second of the error handler.
    (The synthesis credential itself is read again by every call of the
    synthesizer, see [C8_credential_read_again].) *)
Theorem C8_configuration
    {ndarray} (w : World ndarray) (environ : Env) (fuel : nat) :
  let env := load_dotenv w environ in
  let v := default DEFAULT_VOICE_ID (env !! "ELEVENLABS_VOICE_ID") in
  let run := main w environ fuel in
  (getenv_count "GEMINI_API_KEY" run.1.1 ≤ 1)%nat ∧
  (getenv_count "ELEVENLABS_VOICE_ID" run.1.1 ≤ 1)%nat ∧
  (getenv_count "LOOP_DELAY_SECONDS" run.1.1 ≤ 1)%nat ∧
  os_environ run.1.2 = env ∧
  (∀ key voice model text ret,
     EvCall (text_to_speech key voice model text) ret ∈ run.1.1 →
     env !! "ELEVENLABS_API_KEY" = Some key ∧ voice = v) ∧
  (∀ secs ret,
     EvCall (time_sleep secs) ret ∈ run.1.1 →
     float_of_str w (default "1.0" (env !! "LOOP_DELAY_SECONDS")) = Ok secs ∨
     secs = 1%float).
Proof.
  cbn zeta.
  assert (Hcount : ∀ name, name ≠ "ELEVENLABS_API_KEY" →
            (getenv_count name (main w environ fuel).1.1 ≤ 1)%nat).
  { intros name Hname.
    destruct (main_cases w environ fuel) as
      [(n & e & s & Hn & _ & Hrun) | (d & t & s & st & _ & Hrun & Ht & _)];
      rewrite Hrun; cbn [fst].
    - unfold getenv_count, startup_reads.
      repeat (apply elem_of_cons in Hn as [-> | Hn]);
        [| | | by apply elem_of_nil in Hn]; cbn -[filter];
        repeat (rewrite filter_cons; case_decide); simplify_eq; cbn; lia.
    - change (EvPrint banner :: t) with ([EvPrint banner] ++ t).
      rewrite !getenv_count_app.
      rewrite (loop_reads_only_credential _ _ _ _ _ Ht Hname), Nat.add_0_r.
      unfold getenv_count, startup_reads. cbn -[filter].
      repeat (rewrite filter_cons; case_decide); simplify_eq; cbn; lia. }
  split; [by apply Hcount |]. split; [by apply Hcount |].
  split; [by apply Hcount |]. split.
  - destruct (main_cases w environ fuel) as
      [(n & e & s & _ & Hs & Hrun) | (d & t & s & st & _ & Hrun & _ & Hs & _)];
      by rewrite Hrun.
  - split.
    + intros key voice model text ret Hin.
      apply main_call_in_loop in Hin as (d & t & _ & Ht & Hin).
      exact (loop_event_ok_tts _ _ _ _ _ _ _ _ _ Ht Hin).
    + intros secs ret Hin.
      apply main_call_in_loop in Hin as (d & t & Hd & Ht & Hin).
      destruct (loop_event_ok_sleep _ _ _ _ _ _ Ht Hin) as [-> | ->]; auto.
Qed.

(** Against C8 as stated: in a run of three passes the synthesis credential
    is read from the environment four times, once by the startup check and
    once more by the synthesizer in each pass. *)
Lemma C8_credential_read_again :
  getenv_count "ELEVENLABS_API_KEY" (main fair_world both_keys 0).1.1 = 1 ∧
  getenv_count "ELEVENLABS_API_KEY" (main fair_world both_keys 3).1.1 = 4 ∧
  (main fair_world both_keys 3).2 = Running.
Proof. repeat split; vm_compute; reflexivity. Qed.

(** ** The order of a pass (lines 155-164) *)

#[local] Arguments py_or : simpl never.
#[local] Arguments String.append : simpl never.
#[local] Arguments b64encode : simpl never.
#[local] Arguments goofy_request : simpl never.



(** ** Errors and interrupts in the loop (lines 153-170) *)

(** C2. In any pass, when one of the statements of the [try] body, among
    them the five pipeline steps, raises an error [e] deriving from [Exception]
    after the statements before it have run, the error does not leave the
    loop: the pass prints the line of the error and pauses with
    [time.sleep(1.0)], and, the pause not being interrupted, the loop goes on
    with the next pass.  There is no bound: after any number [n] of
    consecutive failing passes the loop is still running and behaves as the
    loop started at pass [n]. *)
Theorem C2_errors_are_contained {ndarray} (w : World ndarray) :
  (∀ pass pre k post s t0 s0 t1 s1 e fuel,
     try_body = pre ++ k :: post →
     run_stmts w (reaction w pass) pre s = (t0, s0, Ok tt) →
     statement w (reaction w pass) k s0 = (t1, s1, Raise e) →
     is_Exception e = true →
     on_backoff (reaction w pass) = false →
     loop_pass w (reaction w pass) s =
       ((t0 ++ t1) ++ [EvPrint (error_line e); EvCall (time_sleep 1) true],
        s1, Ok Continue) ∧
     while_true w (S fuel) pass s =
       (((t0 ++ t1) ++ [EvPrint (error_line e); EvCall (time_sleep 1) true])
          ++ (while_true w fuel (S pass) s1).1.1,
        (while_true w fuel (S pass) s1).1.2,
        (while_true w fuel (S pass) s1).2)) ∧
  (∀ n first s,
     (∀ pass, first ≤ pass < first + n → fails w pass) →
     ∃ t s',
       (while_true w n first s).2 = Running ∧
       ∀ fuel,
         while_true w (n + fuel) first s =
           (t ++ (while_true w fuel (first + n) s').1.1,
            (while_true w fuel (first + n) s').1.2,
            (while_true w fuel (first + n) s').2)).
Proof.
  split.
  - intros pass pre k post s t0 s0 t1 s1 e fuel Hbody Hpre Hk He Hb.
    assert (Hpass : loop_pass w (reaction w pass) s =
              ((t0 ++ t1) ++ [EvPrint (error_line e); EvCall (time_sleep 1) true],
               s1, Ok Continue)).
    { rewrite loop_pass_run, (try_block_raise w _ _ _ _ _ _ _ _ _ _ Hbody Hpre Hk), Hb.
      by destruct e. }
    split; [exact Hpass |].
    rewrite while_true_S, Hpass.
    by destruct (while_true w fuel (S pass) s1) as [[t' s''] st].
  - intros n. induction n as [|n IH]; intros first s Hfails.
    + exists [], s. split; [reflexivity |]. intros fuel.
      rewrite Nat.add_0_r. cbn.
      by destruct (while_true w fuel first s) as [[t' s''] st].
    + destruct (Hfails first ltac:(lia)) as [Hb Hraise].
      destruct (Hraise s) as (t & s1 & e & Htry & He).
      assert (Hpass : loop_pass w (reaction w first) s =
                (t ++ [EvPrint (error_line e); EvCall (time_sleep 1) true],
                 s1, Ok Continue)).
      { rewrite loop_pass_run, Htry, Hb. by destruct e. }
      destruct (IH (S first) s1) as (t' & s' & Hrun & Hnext).
      { intros pass Hpass'. apply Hfails. lia. }
      exists ((t ++ [EvPrint (error_line e); EvCall (time_sleep 1) true]) ++ t'), s'.
      split.
      * rewrite while_true_S, Hpass.
        destruct (while_true w n (S first) s1) as [[t2 s2] st2]. exact Hrun.
      * intros fuel. change (S n + fuel) with (S (n + fuel)).
        rewrite while_true_S, Hpass, (Hnext fuel).
        replace (S first + n) with (first + S n) by lia.
        by rewrite app_assoc.
Qed.

Lemma dark_world_fails (pass : nat) : fails dark_world pass.
Proof.
  split; [reflexivity |]. intros s. do 3 eexists. split; reflexivity.
Qed.

Lemma C2_witness :
  (while_true dark_world 7 0 ready).2 = Running ∧
  loop_pass dark_world (reaction dark_world 0) ready =
    ([EvCall (cv2_VideoCapture 0) true;
      EvPrint "⚠️ Error en loop: No se pudo abrir la webcam (índice 0).";
      EvCall (time_sleep 1) true],
     ready, Ok Continue).
Proof.
  destruct (C2_errors_are_contained dark_world) as [Hone Hmany]. split.
  - destruct (Hmany 7 0 ready) as (t & s' & Hrun & _); [| exact Hrun].
    intros pass _. apply dark_world_fails.
  - apply (Hone 0 [] StCapture
             [StRecord; StTranscribe; StShowTranscript; StGenerate; StShowReply;
              StSpeak; StSleep]
             ready [] ready [EvCall (cv2_VideoCapture 0) true] ready
             (RuntimeError "No se pudo abrir la webcam (índice 0).") 0);
      reflexivity.
Defined.

(** How a pass can end. *)
Lemma loop_pass_cases {ndarray} (w : World ndarray) (r : Reaction ndarray) s :
  (loop_pass w r s).2 = Ok Continue ∨
  ((loop_pass w r s).2 = Ok Break ∧
   ∃ t0, (loop_pass w r s).1.1 = t0 ++ [EvPrint farewell] ∧
         try_block w r s = (t0, (loop_pass w r s).1.2, Raise KeyboardInterrupt)) ∨
  ((loop_pass w r s).2 = Raise KeyboardInterrupt ∧ on_backoff r = true).
Proof.
  rewrite loop_pass_run.
  destruct (try_block w r s) as [[t s'] [[]|e]]; [by left |].
  destruct e; [right; left; cbn; eauto | ..];
    (destruct (on_backoff r); [right; right | left]; done).
Qed.

(** The loop ends only through a [KeyboardInterrupt]: raised in the [try]
    body of some pass, it ends the run with the farewell as last line; raised
    during the pause of the error handler, it leaves [main] uncaught. *)
Lemma while_true_ends {ndarray} (w : World ndarray) fuel first s :
  (while_true w fuel first s).2 = Running ∨
  ((while_true w fuel first s).2 = Returned ∧
   (∃ t, (while_true w fuel first s).1.1 = t ++ [EvPrint farewell]) ∧
   ∃ pass s0 t0 s1,
     try_block w (reaction w pass) s0 = (t0, s1, Raise KeyboardInterrupt)) ∨
  ((while_true w fuel first s).2 = Uncaught KeyboardInterrupt ∧
   ∃ pass, on_backoff (reaction w pass) = true).
Proof.
  revert first s. induction fuel as [|fuel IH]; intros first s; [by left |].
  rewrite while_true_S.
  destruct (loop_pass_cases w (reaction w first) s) as
    [Hc | [(Hc & t0 & Ht & Htry) | (Hc & Hb)]];
    destruct (loop_pass w (reaction w first) s) as [[t s'] o];
    cbn in Hc; subst o.
  - specialize (IH (S first) s').
    destruct (while_true w fuel (S first) s') as [[t2 s2] st2]; cbn in *.
    destruct IH as [? | [( ? & [t3 ->] & ?) | ?]]; [by left | | by right; right].
    right; left. split; [done |]. split; [| done].
    exists (t ++ t3). by rewrite app_assoc.
  - right; left. cbn in *. split; [done |]. split; [by exists t0 |]. eauto 10.
  - right; right. cbn. eauto.
Qed.

(** C7, as the script has it.  A [KeyboardInterrupt] raised by any statement
    of the [try] body, so also while one of the five pipeline steps is in
    progress, ends the loop at once: the statement is abandoned, the farewell
    is printed and [main] returns.  And the loop ends in no other way than
    through a [KeyboardInterrupt]: a run of the loop is still running, or has
    returned after a [KeyboardInterrupt] in some [try] body with the farewell
    as its last line, or was left by a [KeyboardInterrupt] raised during the
    pause of the error handler. *)
Theorem C7_interrupts {ndarray} (w : World ndarray) :
  (∀ pass pre k post s t0 s0 t1 s1 fuel,
     try_body = pre ++ k :: post →
     run_stmts w (reaction w pass) pre s = (t0, s0, Ok tt) →
     statement w (reaction w pass) k s0 = (t1, s1, Raise KeyboardInterrupt) →
     while_true w (S fuel) pass s =
       ((t0 ++ t1) ++ [EvPrint farewell], s1, Returned)) ∧
  (∀ fuel first s,
     (while_true w fuel first s).2 = Running ∨
     ((while_true w fuel first s).2 = Returned ∧
      (∃ t, (while_true w fuel first s).1.1 = t ++ [EvPrint farewell]) ∧
      ∃ pass s0 t0 s1,
        try_block w (reaction w pass) s0 = (t0, s1, Raise KeyboardInterrupt)) ∨
     ((while_true w fuel first s).2 = Uncaught KeyboardInterrupt ∧
      ∃ pass, on_backoff (reaction w pass) = true)).
Proof.
  split; [| apply while_true_ends].
  intros pass pre k post s t0 s0 t1 s1 fuel Hbody Hpre Hk.
  rewrite while_true_S, loop_pass_run.
  by rewrite (try_block_raise w _ _ _ _ _ _ _ _ _ _ Hbody Hpre Hk).
Qed.

Lemma C7_witness :
  while_true impatient_world 5 0 ready =
    (([EvCall (cv2_VideoCapture 0) true; EvCall cam_read true;
       EvCall cam_release true; EvCall (cv2_imencode ".jpg") true] ++
      [EvPrint "🎤 Grabando audio por 4 segundos...";
       EvCall (sd_rec 64000 16000 1 "float32") true; EvCall sd_wait false]) ++
     [EvPrint farewell],
     set_frame_b64 "SlBH" ready, Returned).
Proof.
  apply (proj1 (C7_interrupts impatient_world) 0 [StCapture] StRecord
           [StTranscribe; StShowTranscript; StGenerate; StShowReply; StSpeak; StSleep]
           ready _ (set_frame_b64 "SlBH" ready) _ _ 4);
    vm_compute; reflexivity.
Defined.

(** Against C7 as stated: the interrupt arrives while the recording step is
    in progress (its [sd.wait()] is cut short).  The step is not completed: no
    file is written, nothing is transcribed; the farewell is printed at once
    and [main] returns. *)
Lemma C7_interrupt_during_step :
  on_wait_rec (reaction impatient_world 0) = Raise KeyboardInterrupt ∧
  calls (main impatient_world both_keys 5).1.1 =
    [(cv2_VideoCapture 0, true); (cam_read, true); (cam_release, true);
     (cv2_imencode ".jpg", true); (sd_rec 64000 16000 1 "float32", true);
     (sd_wait, false)] ∧
  last (printed (main impatient_world both_keys 5).1.1) = Some farewell ∧
  (main impatient_world both_keys 5).2 = Returned.
Proof. repeat split; vm_compute; reflexivity. Qed.

(** ** Playback (lines 133-135, 163-164) *)

Lemma playback_run_app playing t1 t2 :
  playback_run playing (t1 ++ t2) =
  match playback_run playing t1 with
  | Some playing' => playback_run playing' t2
  | None => None
  end.
Proof.
  revert playing. induction t1 as [|ev t1 IH]; intros playing; [reflexivity |].
  cbn. destruct (playback_step playing ev); [apply IH | reflexivity].
Qed.

Section Playback.
Context {ndarray : Type} (w : World ndarray).

Lemma statement_playback (r : Reaction ndarray) (k : stmt) (s : State) :
  wait_play_ok r →
  playback_run false (statement w r k s).1.1 = Some false ∨
  (playback_run false (statement w r k s).1.1 = Some true ∧
   (statement w r k s).2 = Raise KeyboardInterrupt).
Proof.
  intros Hwait.
  destruct k; unfold_steps; unfold_M; cbn; world_cases; auto.
  all: destruct Hwait as [Hw | Hw]; rewrite Hw in *; cbn in *;
    simplify_eq; auto.
Qed.

Lemma run_stmts_playback (r : Reaction ndarray) (ks : list stmt) (s : State) :
  wait_play_ok r →
  playback_run false (run_stmts w r ks s).1.1 = Some false ∨
  (playback_run false (run_stmts w r ks s).1.1 = Some true ∧
   (run_stmts w r ks s).2 = Raise KeyboardInterrupt).
Proof.
  intros Hwait. revert s. induction ks as [|k ks IH]; intros s; [by left |].
  rewrite run_stmts_cons.
  destruct (statement_playback r k s Hwait) as [Hk | [Hk He]];
    destruct (statement w r k s) as [[t s'] [[]|e]]; cbn in *; auto;
    try discriminate.
  specialize (IH s').
  destruct (run_stmts w r ks s') as [[t' s''] o]; cbn in *.
  by rewrite playback_run_app, Hk.
Qed.

Lemma loop_pass_playback (r : Reaction ndarray) (s : State) :
  wait_play_ok r →
  playback_run false (loop_pass w r s).1.1 = Some false ∨
  (is_Some (playback_run false (loop_pass w r s).1.1) ∧
   (loop_pass w r s).2 = Ok Break).
Proof.
  intros Hwait. rewrite loop_pass_run.
  destruct (run_stmts_playback r try_body s Hwait) as [Hk | [Hk He]];
    fold (try_block w r) in *;
    destruct (try_block w r s) as [[t s'] [[]|e]]; cbn in *; auto;
    try discriminate.
  - destruct e; cbn; rewrite playback_run_app, Hk; cbn; eauto.
  - injection He as ->. right. cbn. rewrite playback_run_app, Hk. cbn. eauto.
Qed.

Lemma while_true_playback fuel first (s : State) :
  (∀ pass, wait_play_ok (reaction w pass)) →
  is_Some (playback_run false (while_true w fuel first s).1.1).
Proof.
  intros Hwait. revert first s.
  induction fuel as [|fuel IH]; intros first s; [by eexists |].
  rewrite while_true_S.
  destruct (loop_pass_playback (reaction w first) s (Hwait first)) as [Hp | [Hp Hb]];
    destruct (loop_pass w (reaction w first) s) as [[t s'] [[]|e]]; cbn in *;
    try discriminate; eauto.
  specialize (IH (S first) s').
  destruct (while_true w fuel (S first) s') as [[t' s''] st]; cbn in *.
  by rewrite playback_run_app, Hp.
Qed.

End Playback.

(** C6.  When [speak_with_elevenlabs] returns, the last two actions of the
    call are [sd.play], which returned, and [sd.wait()], which returned: the
    playback it started has finished.  And in every run of [main], [sd.wait()]
    reporting no error by raising, no pause of the loop and no other playback
    starts while a playback is in progress. *)
Theorem C6_playback_blocks {ndarray} (w : World ndarray) :
  (∀ (r : Reaction ndarray) text voice s t s',
     speak_with_elevenlabs r text voice s = (t, s', Ok tt) →
     ∃ t0 sr, t = t0 ++ [EvCall (sd_play sr) true; EvCall sd_wait true]) ∧
  (∀ environ fuel,
     (∀ pass, wait_play_ok (reaction w pass)) →
     is_Some (playback_run false (main w environ fuel).1.1)).
Proof.
  split.
  - intros r text voice s t s'.
    unfold speak_with_elevenlabs. unfold_M. cbn. world_cases; try discriminate.
    intros [= <- <-].
    match goal with H : on_wait_play r = Ok _ |- _ => rewrite H end.
    eexists [_; _; _; _; _], _. reflexivity.
  - intros environ fuel Hwait.
    destruct (main_cases w environ fuel) as
      [(n & e & s & Hn & _ & Hrun) | (d & t & s & st & _ & Hrun & _)].
    + rewrite Hrun. cbn [fst].
      repeat (apply elem_of_cons in Hn as [-> | Hn]);
        [| | | by apply elem_of_nil in Hn]; by eexists.
    + unfold main in *. rewrite startup_run in *. cbn zeta in *.
      destruct (py_not _); [discriminate |].
      destruct (py_not _); [discriminate |].
      destruct (float_of_str w _); [| discriminate].
      match goal with |- context [while_true w fuel 0 ?s0] =>
        pose proof (while_true_playback w fuel 0 s0 Hwait) as Hplay;
        destruct (while_true w fuel 0 s0) as [[t' s''] st']
      end.
      cbn [fst] in *. rewrite playback_run_app. exact Hplay.
Qed.

Lemma fair_world_wait_play (pass : nat) : wait_play_ok (reaction fair_world pass).
Proof. by left. Qed.

Lemma C6_witness :
  is_Some (playback_run false (main fair_world both_keys 3).1.1) ∧
  ∃ t0 sr,
    (speak_with_elevenlabs (reaction fair_world 0) "hola" DEFAULT_VOICE_ID ready).1.1
    = t0 ++ [EvCall (sd_play sr) true; EvCall sd_wait true].
Proof.
  destruct (C6_playback_blocks fair_world) as [Hspeak Hrun]. split.
  - apply Hrun. exact fair_world_wait_play.
  - apply (Hspeak (reaction fair_world 0) "hola" DEFAULT_VOICE_ID ready _
             (speak_with_elevenlabs (reaction fair_world 0) "hola"
                DEFAULT_VOICE_ID ready).1.2).
    vm_compute. reflexivity.
Defined.

(** * Further properties of the script *)

(** ** The audio recorder (lines 56-69) *)

(** X1. [record_microphone_wav(seconds)] leaves the locals of [main] alone
    and first announces the recording.  It asks for [seconds * 16000] mono
    float32 frames at 16 kHz and creates the temporary [.wav] file only after
    [sd.wait()] has returned: when the recording or the wait raises, no file
    is created.  When it returns, it returns the name of the temporary file,
    which is the path the recording was written to, at 16 kHz. *)
Theorem X1_record_microphone_wav
    {ndarray} (r : Reaction ndarray) (seconds : Z) (s : State) :
  ∃ t o,
    record_microphone_wav r seconds s =
      (EvPrint ("🎤 Grabando audio por " +:+ pretty seconds +:+ " segundos...") ::
       EvCall (sd_rec (seconds * 16000) 16000 1 "float32")
         (returned (on_rec r (seconds * 16000))) :: t, s, o) ∧
    (returned (on_rec r (seconds * 16000)) && returned (on_wait_rec r) = false →
       (∀ suffix ret, (NamedTemporaryFile suffix, ret) ∉ calls t) ∧
       (∀ path rate ret, (sf_write path rate, ret) ∉ calls t) ∧
       returned o = false) ∧
    (∀ path, o = Ok path →
       ∃ recording,
         on_rec r (seconds * 16000) = Ok recording ∧
         on_tempfile_wav r = Ok path ∧
         on_sf_write r path recording = Ok tt ∧
         t = [EvCall sd_wait true; EvCall (NamedTemporaryFile ".wav") true;
              EvCall (sf_write path 16000) true]).
Proof.
  unfold record_microphone_wav, AUDIO_SAMPLE_RATE. unfold_M. cbn.
  destruct (on_rec r (seconds * 16000)) as [recording|e]; cbn.
  2:{ do 2 eexists. split; [reflexivity |]. split; [| discriminate].
      intros _. repeat split; intros; by apply not_elem_of_nil. }
  destruct (on_wait_rec r) as [[]|e]; cbn.
  2:{ do 2 eexists. split; [reflexivity |]. split; [| discriminate].
      intros _. repeat split; intros; cbn;
        (intros Hin; apply elem_of_cons in Hin as [Hin | Hin];
         [discriminate | by apply elem_of_nil in Hin]). }
  destruct (on_tempfile_wav r) as [path|e]; cbn.
  2:{ do 2 eexists. split; [reflexivity |]. split; discriminate. }
  destruct (on_sf_write r path recording) as [[]|e] eqn:Hwrite; cbn.
  2:{ do 2 eexists. split; [reflexivity |]. split; discriminate. }
  do 2 eexists. split; [reflexivity |]. split; [discriminate |].
  intros ? [= <-]. exists recording. by rewrite Hwrite.
Qed.

(** ** The transcriber (lines 72-84) *)

(** X2. [transcribe_audio_with_gemini(wav_path)] leaves the locals alone and
    reads the file at [wav_path] first.  When the file cannot be read, the
    error of the read is raised and no request is sent.  Otherwise exactly one
    transcription request is sent, for the model gemini/gemini-2.0-flash, with
    the bytes read under the file name mic.wav; the result is the text of the
    answer after [strip()], or the error of the request. *)
Theorem X2_transcribe_audio_with_gemini
    {ndarray} (w : World ndarray) (r : Reaction ndarray) (path : string) (s : State) :
  match on_open_read r path with
  | Raise e =>
      transcribe_audio_with_gemini w r path s =
        ([EvCall (open_read path) false], s, Raise e)
  | Ok audio =>
      transcribe_audio_with_gemini w r path s =
        ([EvCall (open_read path) true;
          EvCall (transcription "gemini/gemini-2.0-flash" "mic.wav" audio)
            (returned (on_transcription r audio))],
         s,
         match on_transcription r audio with
         | Ok text => Ok (str_strip w text)
         | Raise e => Raise e
         end)
  end.
Proof.
  unfold transcribe_audio_with_gemini. unfold_M.
  destruct (on_open_read r path) as [audio|e]; cbn; [| reflexivity].
  destruct (on_transcription r audio); reflexivity.
Qed.

(** ** Properties of every action of a run *)

Section Everywhere.
Context {ndarray : Type} (w : World ndarray).
Variable P : event → Prop.
Hypothesis P_statement : ∀ r k s, Forall P (statement w r k s).1.1.
Hypothesis P_print : ∀ line, P (EvPrint line).
Hypothesis P_pause : ∀ ret, P (EvCall (time_sleep 1) ret).

Lemma run_stmts_everywhere r ks s : Forall P (run_stmts w r ks s).1.1.
Proof.
  revert s. induction ks as [|k ks IH]; intros s; [constructor |].
  rewrite run_stmts_cons. pose proof (P_statement r k s) as Hk.
  destruct (statement w r k s) as [[t s'] [[]|e]]; [| exact Hk].
  specialize (IH s'). destruct (run_stmts w r ks s') as [[t' s''] o].
  by apply Forall_app.
Qed.

Lemma loop_pass_everywhere r s : Forall P (loop_pass w r s).1.1.
Proof.
  rewrite loop_pass_run. pose proof (run_stmts_everywhere r try_body s) as Ht.
  fold (try_block w r) in Ht.
  destruct (try_block w r s) as [[t s'] [[]|e]]; [exact Ht |].
  destruct e; cbn; apply Forall_app; (split; [exact Ht |]); repeat constructor; auto.
Qed.

Lemma while_true_everywhere fuel first s : Forall P (while_true w fuel first s).1.1.
Proof.
  revert first s. induction fuel as [|fuel IH]; intros first s; [constructor |].
  rewrite while_true_S. pose proof (loop_pass_everywhere (reaction w first) s) as Ht.
  destruct (loop_pass w (reaction w first) s) as [[t s'] [[]|e]]; try exact Ht.
  specialize (IH (S first) s').
  destruct (while_true w fuel (S first) s') as [[t' s''] st].
  by apply Forall_app.
Qed.

Hypothesis P_dotenv : P EvLoadDotenv.
Hypothesis P_getenv : ∀ name, P (EvGetenv name).

Lemma main_everywhere environ fuel : Forall P (main w environ fuel).1.1.
Proof.
  unfold main. rewrite startup_run. cbn zeta.
  destruct (py_not _); [repeat constructor; auto |].
  destruct (py_not _); [repeat constructor; auto |].
  destruct (float_of_str w _); [| repeat constructor; auto].
  match goal with |- context [while_true w fuel 0 ?s0] =>
    pose proof (while_true_everywhere fuel 0 s0) as Ht;
    destruct (while_true w fuel 0 s0) as [[t s] st]
  end.
  apply Forall_app. split; [repeat constructor; auto | exact Ht].
Qed.

End Everywhere.

(** X3. Whatever the environment and the world, every call a run of [main]
    makes uses the parameters the script fixes: the camera of index 0, JPEG
    encoding, recordings of 64000 mono float32 frames at 16 kHz written at
    16 kHz, the file name mic.wav and the model gemini/gemini-2.0-flash for
    transcription, completion requests made of the persona as system message
    and one user message with a text part and a base64 JPEG data URL, at
    temperature 0.9 with at most 100 tokens, the synthesis model
    eleven_multilingual_v2, and temporary files with suffix .wav or .mp3. *)
Theorem X3_fixed_parameters
    {ndarray} (w : World ndarray) (environ : Env) (fuel : nat) :
  Forall fixed_parameters (main w environ fuel).1.1.
Proof.
  apply main_everywhere; try done.
  intros r k s.
  destruct k; unfold_steps; unfold_M; cbn; world_cases;
    repeat (apply Forall_cons; split); try apply Forall_nil; cbn; auto.
  all: unfold goofy_request, user_content, VISION_TEXT_MODEL; eauto.
Qed.

(** ** The prompt, again (lines 92-96) *)

Lemma append_cons (c : ascii) (a b : string) :
  String c a +:+ b = String c (a +:+ b).
Proof. reflexivity. Qed.

Lemma append_nil (b : string) : "" +:+ b = b.
Proof. reflexivity. Qed.

Lemma append_length (a b : string) :
  String.length (a +:+ b) = String.length a + String.length b.
Proof.
  induction a as [|c a IH]; [reflexivity |].
  rewrite append_cons. cbn. by rewrite IH.
Qed.

(** Texts that agree once the same text is appended agree. *)
Lemma append_inj_r (x a b : string) : a +:+ x = b +:+ x → a = b.
Proof.
  revert b. induction a as [|c a IH]; intros [|c' b] Heq;
    rewrite ?append_cons, ?append_nil in Heq.
  - reflexivity.
  - apply (f_equal String.length) in Heq. cbn in Heq.
    rewrite append_length in Heq. lia.
  - apply (f_equal String.length) in Heq. cbn in Heq.
    rewrite append_length in Heq. lia.
  - injection Heq as -> Heq. f_equal. by apply IH.
Qed.

Lemma user_text_inj (a b : string) :
  user_text a = user_text b →
  py_or a "[sin audio claro]" = py_or b "[sin audio claro]".
Proof.
  unfold user_text. intros Heq.
  apply String.app_inj in Heq. apply String.app_inj in Heq.
  by apply append_inj_r in Heq.
Qed.

(** X4. The text of the prompt determines the transcript, with one
    exception: two transcripts that are not empty and differ give different
    prompt texts, but the transcript ["[sin audio claro]"] gives the very
    prompt text of the empty transcript, and no other transcript does. *)
Theorem X4_prompt_determines_transcript (a b : string) :
  (a ≠ "" → b ≠ "" → user_text a = user_text b → a = b) ∧
  user_text "[sin audio claro]" = user_text "" ∧
  (user_text a = user_text "" → a = "" ∨ a = "[sin audio claro]").
Proof.
  split; [| split].
  - intros Ha Hb Heq. apply user_text_inj in Heq.
    unfold py_or in Heq. by rewrite !truthy_nonempty in Heq.
  - reflexivity.
  - intros Heq. apply user_text_inj in Heq. unfold py_or in Heq.
    destruct a; [by left | by right].
Qed.

(** ** The speech synthesizer (lines 117-135) *)

(** X5. [speak_with_elevenlabs] leaves the locals and the environment alone.
    When ELEVENLABS_API_KEY is not in the environment at the time of the call,
    it raises [KeyError] and no request is sent.  Otherwise the request carries
    the value the environment holds and the voice and text given.  The chunks
    of the answer are written, concatenated in order, to the temporary [.mp3]
    file, the file decoded is that same file, and [sd.play] is called only
    when the decoding returned, with the sample rate it gave: when a stage
    raises, its error is the outcome and nothing is played. *)
Theorem X5_speak_with_elevenlabs
    {ndarray} (r : Reaction ndarray) (text voice : string) (s : State) :
  ∃ t o,
    speak_with_elevenlabs r text voice s = (EvGetenv "ELEVENLABS_API_KEY" :: t, s, o) ∧
    (os_environ s !! "ELEVENLABS_API_KEY" = None →
       t = [] ∧ o = Raise (KeyError "ELEVENLABS_API_KEY")) ∧
    (∀ key voice' model text' ret,
       (text_to_speech key voice' model text', ret) ∈ calls t →
       os_environ s !! "ELEVENLABS_API_KEY" = Some key ∧ voice' = voice ∧ text' = text) ∧
    (∀ path data ret,
       (tmp_write path data, ret) ∈ calls t →
       ∃ key chunks,
         on_text_to_speech r key voice text = Ok chunks ∧ data = concat chunks ∧
         on_tempfile_mp3 r = Ok path) ∧
    (∀ sr ret,
       (sd_play sr, ret) ∈ calls t →
       ∃ path data,
         on_tempfile_mp3 r = Ok path ∧ on_sf_read r path = Ok (data, sr) ∧
         (sf_read path "float32", true) ∈ calls t).
Proof.
  unfold speak_with_elevenlabs. unfold_M. cbn. world_cases.
  all: do 2 eexists; (split; [reflexivity |]); cbn.
  all: split; [try discriminate; done |].
  all: repeat split; intros;
    repeat match goal with
      | H : _ ∈ [] |- _ => by apply elem_of_nil in H
      | H : _ ∈ _ :: _ |- _ => apply elem_of_cons in H as [H | H]; simplify_eq
      end;
    eauto 10 using list_elem_of_here, list_elem_of_further.
Qed.

(** ** Properties of logs kept by concatenation *)

Lemma tally_app f t1 t2 : tally f (t1 ++ t2) = tally f t1 + tally f t2.
Proof. induction t1 as [|ev t1 IH]; cbn; [reflexivity | rewrite IH; lia]. Qed.

Section Composed.
Context {ndarray : Type} (w : World ndarray).
Variable Q : trace → Prop.
Variable Inv : State → Prop.
Hypothesis Q_nil : Q [].
Hypothesis Q_app : ∀ t1 t2, Q t1 → Q t2 → Q (t1 ++ t2).
Hypothesis Q_statement :
  ∀ r k s, Inv s → Q (statement w r k s).1.1 ∧ Inv (statement w r k s).1.2.
Hypothesis Q_farewell : Q [EvPrint farewell].
Hypothesis Q_handler :
  ∀ e ret, Q [EvPrint (error_line e); EvCall (time_sleep 1) ret].

Lemma run_stmts_composed r ks s :
  Inv s → Q (run_stmts w r ks s).1.1 ∧ Inv (run_stmts w r ks s).1.2.
Proof.
  revert s. induction ks as [|k ks IH]; intros s Hs; [by split |].
  rewrite run_stmts_cons. destruct (Q_statement r k s Hs) as [Hk Hs'].
  destruct (statement w r k s) as [[t s'] [[]|e]]; cbn in *; [| done].
  destruct (IH s' Hs') as [Hks Hs''].
  destruct (run_stmts w r ks s') as [[t' s''] o]; cbn in *. auto.
Qed.

Lemma loop_pass_composed r s :
  Inv s → Q (loop_pass w r s).1.1 ∧ Inv (loop_pass w r s).1.2.
Proof.
  intros Hs. rewrite loop_pass_run.
  destruct (run_stmts_composed r try_body s Hs) as [Ht Hs'].
  fold (try_block w r) in Ht, Hs'.
  destruct (try_block w r s) as [[t s'] [[]|e]]; cbn in *; [done |].
  destruct e; cbn; auto.
Qed.

Lemma while_true_composed fuel first s :
  Inv s → Q (while_true w fuel first s).1.1 ∧ Inv (while_true w fuel first s).1.2.
Proof.
  revert first s. induction fuel as [|fuel IH]; intros first s Hs; [by split |].
  rewrite while_true_S.
  destruct (loop_pass_composed (reaction w first) s Hs) as [Ht Hs'].
  destruct (loop_pass w (reaction w first) s) as [[t s'] [[]|e]]; cbn in *;
    [| done ..].
  destruct (IH (S first) s' Hs') as [Ht' Hs''].
  destruct (while_true w fuel (S first) s') as [[t' s''] st]; cbn in *. auto.
Qed.

End Composed.

(** ** The camera over a whole run *)

Lemma camera_statement {ndarray} (w : World ndarray) r k s :
  tally is_release (statement w r k s).1.1 = tally is_read (statement w r k s).1.1 ∧
  (tally is_read (statement w r k s).1.1 ≤ tally is_open (statement w r k s).1.1)%nat.
Proof.
  destruct k; unfold_steps; unfold_M; cbn; world_cases; cbn; lia.
Qed.

(** X6. In every run of [main] the camera is released as often as a frame
    read returned, and frames are read only from cameras opened before: no
    camera that delivered a read stays open. *)
Theorem X6_camera_released
    {ndarray} (w : World ndarray) (environ : Env) (fuel : nat) :
  tally is_release (main w environ fuel).1.1 = tally is_read (main w environ fuel).1.1 ∧
  (tally is_read (main w environ fuel).1.1 ≤ tally is_open (main w environ fuel).1.1)%nat.
Proof.
  destruct (main_cases w environ fuel) as
    [(n & e & s & Hn & _ & Hrun) | (d & t & s & st & _ & Hrun & _)].
  - rewrite Hrun. cbn [fst].
    repeat (apply elem_of_cons in Hn as [-> | Hn]);
      [| | | by apply elem_of_nil in Hn]; cbn; lia.
  - unfold main in *. rewrite startup_run in *. cbn zeta in *.
    destruct (py_not _); [discriminate |].
    destruct (py_not _); [discriminate |].
    destruct (float_of_str w _); [| discriminate].
    match goal with |- context [while_true w fuel 0 ?s0] =>
      destruct (while_true_composed w
                  (λ t, tally is_release t = tally is_read t ∧
                        (tally is_read t ≤ tally is_open t)%nat)
                  (λ _, True)) with (fuel := fuel) (first := 0) (s := s0)
        as [[Hrel Hread] _];
      destruct (while_true w fuel 0 s0) as [[t' s''] st']
    end.
    1: done.
    1: intros t1 t2 [? ?] [? ?]; rewrite !tally_app; lia.
    1: intros r k s1 _; split; [apply camera_statement | done].
    1: cbn; lia.
    1: intros; cbn; lia.
    1: done.
    cbn [fst] in *. rewrite !tally_app. cbn. lia.
Qed.

Lemma opens_once {ndarray} (w : World ndarray) r s :
  tally is_open (loop_pass w r s).1.1 = 1.
Proof.
  rewrite loop_pass_run.
  assert (Htry : tally is_open (try_block w r s).1.1 = 1).
  { unfold try_block, try_body, run_stmts. unfold_steps. unfold_M. cbn.
    world_cases; reflexivity. }
  destruct (try_block w r s) as [[t s'] [[]|e]]; cbn in *; [done |].
  destruct e; cbn; rewrite tally_app, Htry; reflexivity.
Qed.

(** X7. Every pass of the loop opens the camera exactly once, anew: the
    loop observed for [fuel] passes has called [cv2.VideoCapture] at most
    [fuel] times, and exactly [fuel] times when it is still running. *)
Theorem X7_camera_opened_each_pass
    {ndarray} (w : World ndarray) (fuel first : nat) (s : State) :
  (tally is_open (while_true w fuel first s).1.1 ≤ fuel)%nat ∧
  ((while_true w fuel first s).2 = Running →
   tally is_open (while_true w fuel first s).1.1 = fuel).
Proof.
  revert first s. induction fuel as [|fuel IH]; intros first s; [by split |].
  rewrite while_true_S. pose proof (opens_once w (reaction w first) s) as Hone.
  destruct (loop_pass w (reaction w first) s) as [[t s'] [[]|e]]; cbn in *;
    [| split; [lia | discriminate] ..].
  destruct (IH (S first) s') as [Hle Heq].
  destruct (while_true w fuel (S first) s') as [[t' s''] st]; cbn in *.
  rewrite tally_app, Hone. split; [lia |]. intros Hst. rewrite (Heq Hst). lia.
Qed.

(** ** The credential of the synthesizer over a whole run *)

Lemma credential_statement {ndarray} (w : World ndarray) (env : Env) r k s :
  is_Some (env !! "ELEVENLABS_API_KEY") →
  os_environ s = env →
  tally is_credential_read (statement w r k s).1.1 = tally is_tts (statement w r k s).1.1 ∧
  os_environ (statement w r k s).1.2 = env.
Proof.
  intros [key Hkey] Henv. subst env.
  destruct k; unfold_steps; unfold_M; cbn; world_cases; cbn; auto; congruence.
Qed.

(** X8. In a run of [main] that passes the two credential checks, the lookup
    of the credential inside [speak_with_elevenlabs] never fails: the variable
    ELEVENLABS_API_KEY is read once by the startup and then exactly once for
    each request sent to the synthesis service, and every such request carries
    a credential that is not empty. *)
Theorem X8_credential_lookup_succeeds
    {ndarray} (w : World ndarray) (environ : Env) (fuel : nat) :
  let env := load_dotenv w environ in
  py_not (env !! "GEMINI_API_KEY") = false →
  py_not (env !! "ELEVENLABS_API_KEY") = false →
  tally is_credential_read (main w environ fuel).1.1 =
    1 + tally is_tts (main w environ fuel).1.1 ∧
  ∀ key voice model text ret,
    EvCall (text_to_speech key voice model text) ret ∈ (main w environ fuel).1.1 →
    env !! "ELEVENLABS_API_KEY" = Some key ∧ key ≠ "".
Proof.
  cbn zeta. intros Hg He. split.
  - unfold main. rewrite startup_run. cbn zeta. rewrite Hg, He.
    destruct (float_of_str w _); [| reflexivity].
    match goal with |- context [while_true w fuel 0 ?s0] =>
      destruct (while_true_composed w
                  (λ t, tally is_credential_read t = tally is_tts t)
                  (λ s, os_environ s = load_dotenv w environ))
        with (fuel := fuel) (first := 0) (s := s0) as [Hcount _];
      destruct (while_true w fuel 0 s0) as [[t' s''] st']
    end.
    1: done.
    1: intros t1 t2 H1 H2; rewrite !tally_app; lia.
    1: { intros r k s1 Hs1. apply credential_statement; [| done].
         destruct (load_dotenv w environ !! "ELEVENLABS_API_KEY"); [eauto | done]. }
    1: reflexivity.
    1: reflexivity.
    1: reflexivity.
    cbn [fst] in *. rewrite !tally_app. cbn. lia.
  - intros key voice model text ret Hin.
    apply main_call_in_loop in Hin as (d & t & _ & Ht & Hin).
    destruct (loop_event_ok_tts _ _ _ _ _ _ _ _ _ Ht Hin) as [Hkey _].
    split; [exact Hkey |]. intros ->. by rewrite Hkey in He.
Qed.

Lemma X8_witness :
  tally is_credential_read (main fair_world both_keys 3).1.1 = 4 ∧
  tally is_tts (main fair_world both_keys 3).1.1 = 3.
Proof.
  destruct (X8_credential_lookup_succeeds fair_world both_keys 3) as [Hcount _];
    [reflexivity | reflexivity |].
  split; [rewrite Hcount |]; vm_compute; reflexivity.
Defined.

(** ** The voice (line 149) *)

(** X9. When ELEVENLABS_VOICE_ID is set, its value is the voice of every
    request to the synthesis service, also when the value is the empty text:
    unlike the credentials, an empty voice is not replaced by the default. *)
Theorem X9_voice_override
    {ndarray} (w : World ndarray) (environ : Env) (fuel : nat) (v : string) :
  load_dotenv w environ !! "ELEVENLABS_VOICE_ID" = Some v →
  ∀ key voice model text ret,
    EvCall (text_to_speech key voice model text) ret ∈ (main w environ fuel).1.1 →
    voice = v.
Proof.
  intros Hv key voice model text ret Hin.
  apply main_call_in_loop in Hin as (d & t & _ & Ht & Hin).
  destruct (loop_event_ok_tts _ _ _ _ _ _ _ _ _ Ht Hin) as [_ ->].
  by rewrite Hv.
Qed.

Lemma X9_witness :
  EvCall (text_to_speech "e-key" "" "eleven_multilingual_v2"
            "¡Alguien saluda a la cámara!") true
    ∈ (main fair_world empty_voice 1).1.1 ∧
  ∀ key voice model text ret,
    EvCall (text_to_speech key voice model text) ret
      ∈ (main fair_world empty_voice 1).1.1 →
    voice = "".
Proof.
  split; [vm_compute; repeat constructor |].
  apply (X9_voice_override fair_world empty_voice 1 ""). reflexivity.
Defined.

(** ** [load_dotenv()] (line 139) *)

(** X10. Every run of [main] starts by calling [load_dotenv()], before any
    variable is read, and never calls it again. *)
Theorem X10_load_dotenv_once
    {ndarray} (w : World ndarray) (environ : Env) (fuel : nat) :
  ∃ t, (main w environ fuel).1.1 = EvLoadDotenv :: t ∧ EvLoadDotenv ∉ t.
Proof.
  destruct (main_cases w environ fuel) as
    [(n & e & s & Hn & _ & Hrun) | (d & t & s & st & _ & Hrun & Ht & _)];
    rewrite Hrun; cbn [fst].
  - repeat (apply elem_of_cons in Hn as [-> | Hn]);
      [| | | by apply elem_of_nil in Hn]; eexists; (split; [reflexivity |]);
      intros Hin;
      repeat (apply elem_of_cons in Hin as [Hin | Hin]; [discriminate |]);
      by apply elem_of_nil in Hin.
  - eexists. split; [reflexivity |]. intros Hin.
    repeat (apply elem_of_cons in Hin as [Hin | Hin]; [discriminate |]).
    exact (proj1 (Forall_forall _ _) Ht _ Hin).
Qed.

(** ** Silence (lines 157-160) *)

(** X11. When the text of the transcription result is empty after
    [strip()], the statements of lines 157-160, started with a recording path
    and a frame in the locals, show the transcript on the console as
    ["[vacío]"] and send the completion service a prompt whose text quotes
    ["[sin audio claro]"]: the two placeholders differ. *)
Theorem X11_silence
    {ndarray} (w : World ndarray) (r : Reaction ndarray) (s : State)
    (path frame : string) (audio : bytes) (heard : string) :
  wav_path s = Some path →
  frame_b64 s = Some frame →
  on_open_read r path = Ok audio →
  on_transcription r audio = Ok heard →
  str_strip w heard = "" →
  ∃ req,
    (run_stmts w r [StTranscribe; StShowTranscript; StGenerate] s).1.1 =
      [EvCall (open_read path) true;
       EvCall (transcription "gemini/gemini-2.0-flash" "mic.wav" audio) true;
       EvPrint "📝 Transcripción: [vacío]";
       EvCall (completion req) (returned (on_completion r req))] ∧
    user_message_text req = Some
      "Este es el contexto del micrófono transcrito: '[sin audio claro]'. Describe qué está pasando como una cámara de seguridad cómica.".
Proof.
  intros Hpath Hframe Hread Hheard Hstrip.
  exists (goofy_request frame "").
  split; [| reflexivity].
  unfold run_stmts. unfold_steps. unfold_M. cbn.
  rewrite Hpath, Hread. cbn. rewrite Hheard. cbn. rewrite Hframe, Hstrip. cbn.
  destruct (on_completion r _); reflexivity.
Qed.

Lemma X11_witness :
  ∃ req,
    (run_stmts dark_world (reaction dark_world 0)
       [StTranscribe; StShowTranscript; StGenerate]
       (set_frame_b64 "SlBH" (set_wav_path "/tmp/tmp1.wav" ready))).1.1 =
      [EvCall (open_read "/tmp/tmp1.wav") true;
       EvCall (transcription "gemini/gemini-2.0-flash" "mic.wav"
                 ["R"; "I"; "F"; "F"]%byte) true;
       EvPrint "📝 Transcripción: [vacío]";
       EvCall (completion req) (returned (on_completion (reaction dark_world 0) req))] ∧
    user_message_text req = Some
      "Este es el contexto del micrófono transcrito: '[sin audio claro]'. Describe qué está pasando como una cámara de seguridad cómica.".
Proof.
  apply (X11_silence dark_world (reaction dark_world 0) _ "/tmp/tmp1.wav" "SlBH"
           ["R"; "I"; "F"; "F"]%byte ""); reflexivity.
Defined.

(** ** An interrupt during the pause of the error handler (line 170) *)

(** X12. When the [try] body of a pass raises an error deriving from
    [Exception] and the operator's interrupt arrives during the one-second
    pause of the handler, no handler catches it: the [KeyboardInterrupt]
    leaves [main], the last line printed is the line of the error, and
    the farewell is not printed. *)
Theorem X12_interrupt_during_pause
    {ndarray} (w : World ndarray) (fuel pass : nat) (s s' : State) (t : trace) (e : exn) :
  try_block w (reaction w pass) s = (t, s', Raise e) →
  is_Exception e = true →
  on_backoff (reaction w pass) = true →
  while_true w (S fuel) pass s =
    (t ++ [EvPrint (error_line e); EvCall (time_sleep 1) false], s',
     Uncaught KeyboardInterrupt) ∧
  last (printed (while_true w (S fuel) pass s).1.1) = Some (error_line e).
Proof.
  intros Htry He Hb.
  assert (Hrun : while_true w (S fuel) pass s =
            (t ++ [EvPrint (error_line e); EvCall (time_sleep 1) false], s',
             Uncaught KeyboardInterrupt)).
  { rewrite while_true_S, loop_pass_run, Htry, Hb. by destruct e. }
  split; [exact Hrun |]. rewrite Hrun. cbn [fst].
  unfold printed. rewrite omap_app. cbn. by rewrite last_snoc.
Qed.

Lemma X12_witness :
  while_true dark_impatient_world 4 0 ready =
    ([EvCall (cv2_VideoCapture 0) true] ++
     [EvPrint (error_line (RuntimeError "No se pudo abrir la webcam (índice 0)."));
      EvCall (time_sleep 1) false],
     ready, Uncaught KeyboardInterrupt).
Proof.
  apply (X12_interrupt_during_pause dark_impatient_world 3 0 ready); reflexivity.
Defined.

(** ** The frame text (line 53) *)

Lemma b64_char_symbol (n : N) : b64_symbol (b64_char n) = true.
Proof.
  unfold b64_char. generalize (N.to_nat (n mod 64)). intros i.
  do 64 (destruct i as [|i]; [reflexivity |]). reflexivity.
Qed.

Lemma b64encode_three a b c rest :
  b64encode (a :: b :: c :: rest) =
  String (b64_char (b64_group a b c / 262144))
    (String (b64_char (b64_group a b c / 4096))
       (String (b64_char (b64_group a b c / 64))
          (String (b64_char (b64_group a b c)) (b64encode rest)))).
Proof. reflexivity. Qed.

(** X13. The text [capture_webcam_frame] makes of [n] encoded bytes has four
    characters for every three bytes, the last group rounded up, and consists
    of letters, digits, [+], [/] and the padding [=] only; it is empty only
    for no bytes. *)
Theorem X13_frame_text (bs : bytes) :
  String.length (b64encode bs) = 4 * ((length bs + 2) / 3) ∧
  Forall (λ c, b64_symbol c = true) (String.list_ascii_of_string (b64encode bs)) ∧
  (b64encode bs = "" ↔ bs = []).
Proof.
  assert (Hall : ∀ n (l : bytes), length l < n →
            String.length (b64encode l) = 4 * ((length l + 2) / 3) ∧
            Forall (λ c, b64_symbol c = true) (String.list_ascii_of_string (b64encode l))).
  { intros n. induction n as [|n IH]; intros l Hl; [lia |].
    destruct l as [|a [|b [|c rest]]].
    - split; [reflexivity | constructor].
    - split; [reflexivity |].
      repeat (constructor; [first [apply b64_char_symbol | reflexivity] |]).
      constructor.
    - split; [reflexivity |].
      repeat (constructor; [first [apply b64_char_symbol | reflexivity] |]).
      constructor.
    - rewrite b64encode_three. destruct (IH rest) as [Hlen Hsym]; [cbn in Hl; lia |].
      split.
      + cbn [String.length length]. rewrite Hlen.
        replace (S (S (S (length rest))) + 2) with (1 * 3 + (length rest + 2)) by lia.
        rewrite Nat.div_add_l by lia. lia.
      + cbn [String.list_ascii_of_string].
        repeat (constructor; [apply b64_char_symbol |]). exact Hsym. }
  destruct (Hall (S (length bs)) bs) as [Hlen Hsym]; [lia |].
  split; [exact Hlen |]. split; [exact Hsym |]. split.
  - destruct bs as [|a [|b [|c rest]]]; [done | discriminate ..].
  - by intros ->.
Qed.

(** ** Passes do not depend on earlier passes (lines 155-164) *)

(** X14. What a pass does, and how it ends, depends on the environment, the
    voice and the delay only, not on what earlier passes left in the locals
    [frame_b64], [wav_path], [transcript_text] and [reply]: started in two
    states that agree on the former, the [try] body makes the same actions and
    has the same outcome, also when it fails half way. *)
Theorem X14_pass_independent
    {ndarray} (w : World ndarray) (r : Reaction ndarray) (s1 s2 : State) :
  os_environ s1 = os_environ s2 →
  voice_id s1 = voice_id s2 →
  loop_delay s1 = loop_delay s2 →
  (try_block w r s1).1.1 = (try_block w r s2).1.1 ∧
  (try_block w r s1).2 = (try_block w r s2).2.
Proof.
  destruct s1 as [env1 v1 d1 f1 p1 t1 a1], s2 as [env2 v2 d2 f2 p2 t2 a2].
  cbn. intros <- <- <-.
  unfold try_block, try_body, run_stmts. unfold_steps. unfold_M. cbn.
  world_cases; split; reflexivity.
Qed.

Lemma X14_witness :
  (try_block fair_world (reaction fair_world 0) used).1.1 =
    (try_block fair_world (reaction fair_world 0) ready).1.1 ∧
  (try_block fair_world (reaction fair_world 0) used).2 =
    (try_block fair_world (reaction fair_world 0) ready).2.
Proof.
  apply (X14_pass_independent fair_world (reaction fair_world 0) used ready);
    reflexivity.
Defined.
